(** * tempo-news-loader: a shallow embedding of the fetch / dedupe / write pipeline

    The development follows the package layout:
    - [Py]        the fragments of Python's [str], [re], [pathlib] and slicing
                  that the sources use, over strings of Unicode code points;
    - [Models]    [models.py]: [Article], [FetchConfig], [generate_slug],
                  [get_file_path];
    - [Writer]    [markdown_writer.py]: the dedupe ledger, the renderer, the
                  text normalizer and [write_articles];
    - [Fetcher]   [fetcher.py]: [fetch_rss_feed], [fetch_article_content],
                  [fetch_articles];
    - [Rag]       [rag_service.py] and [rag_integration.py]: service detection
                  and folder registration;
    - [Cli]       [cli.py]: the [fetch] command.

    Python objects are records, exceptions are a [result] type, and the
    outside world (file system, console, network, clock) is an explicit state
    threaded through a small state-and-exception monad. Exceptions are the
    subclasses of [Exception]; an interrupt from the keyboard is not
    modelled. The console keeps the lines the writer prints. *)

From Stdlib Require Import ZArith NArith QArith List String Ascii Lia Bool.
From stdpp Require Import base option list gmap sets.

Set Default Proof Using "Type".
Local Open Scope N_scope.

(** ** Python strings, regular expressions, slices and paths *)

Module Py.

(** A Python [str] is a sequence of Unicode code points. *)
Definition pystr := list N.

(** ASCII literals. *)
Definition lit (s : string) : pystr := map N_of_ascii (list_ascii_of_string s).

(** Truthiness of [str], of [Optional[str]] and of lists. *)
Definition truthy {A} (l : list A) : bool :=
  match l with [] => false | _ => true end.

Definition truthy_opt {A} (o : option (list A)) : bool :=
  match o with Some l => truthy l | None => false end.

Definition is_ascii (c : N) : bool := c <? 128.

(** The Unicode character database and the library functions reading it.
    They are not part of the repository: the development is parametric in
    them, and states the facts it needs as hypotheses. *)
Class Unicode := {
  (** [str.lower] *)
  str_lower : pystr -> pystr;
  (** [Py_UNICODE_ISSPACE]: [str.isspace], [str.strip()] and [\s] of [re] *)
  isspace : N -> bool;
  (** [Py_UNICODE_ISALNUM]: [str.isalnum]; [\w] of [re] is this or ["_"] *)
  isalnum : N -> bool;
  (** [unicodedata.normalize('NFD', _)] *)
  normalize_NFD : pystr -> pystr;
  (** [unicodedata.category(c) == 'Mn'] *)
  category_Mn : N -> bool;
}.

Definition hyphen : N := 45.
Definition underscore : N := 95.
Definition newline : N := 10.
Definition carriage_return : N := 13.

Section Str.
Context {U : Unicode}.

(** [\w], [\s] and the two character classes of [generate_slug]. *)
Definition re_word (c : N) : bool := isalnum c || (c =? underscore).
Definition re_space (c : N) : bool := isspace c.
(** [[^\w\s-]] *)
Definition slug_reject (c : N) : bool :=
  negb (re_word c || re_space c || (c =? hyphen)).
(** [[-\s]] *)
Definition slug_sep (c : N) : bool := (c =? hyphen) || re_space c.

(** [re.sub('[cls]', repl, s)]: every character of the class is replaced. *)
Definition re_sub_class (cls : N -> bool) (repl : pystr) (s : pystr) : pystr :=
  flat_map (fun c => if cls c then repl else [c]) s.

(** [re.sub('[cls]+', repl, s)]: every maximal run of characters of the
    class is replaced by one [repl]; [in_run] tells that the previous
    character belonged to the run being replaced. *)
Fixpoint re_sub_runs_from (cls : N -> bool) (repl : pystr) (in_run : bool)
    (s : pystr) : pystr :=
  match s with
  | [] => []
  | c :: s' =>
      if cls c
      then (if in_run then [] else repl) ++ re_sub_runs_from cls repl true s'
      else c :: re_sub_runs_from cls repl false s'
  end.

Definition re_sub_runs (cls : N -> bool) (repl : pystr) (s : pystr) : pystr :=
  re_sub_runs_from cls repl false s.

Fixpoint lstrip_by (p : N -> bool) (s : pystr) : pystr :=
  match s with
  | [] => []
  | c :: s' => if p c then lstrip_by p s' else s
  end.

Definition rstrip_by (p : N -> bool) (s : pystr) : pystr :=
  rev (lstrip_by p (rev s)).

(** [s.strip(chars)] with the characters given as a predicate. *)
Definition strip_by (p : N -> bool) (s : pystr) : pystr :=
  rstrip_by p (lstrip_by p s).

(** [s.strip()] *)
Definition str_strip (s : pystr) : pystr := strip_by isspace s.

(** [s.replace(old, new)] for a one-character [old]. *)
Definition str_replace (old : N) (new : pystr) (s : pystr) : pystr :=
  flat_map (fun c => if c =? old then new else [c]) s.

(** [sep.join(parts)] *)
Fixpoint str_join (sep : pystr) (parts : list pystr) : pystr :=
  match parts with
  | [] => []
  | [p] => p
  | p :: ps => p ++ sep ++ str_join sep ps
  end.

(** [s.split(sep)] for a one-character [sep]: never empty, keeps empty
    fields. [cur] is the field being read, reversed. *)
Fixpoint str_split_from (sep : N) (cur : pystr) (s : pystr) : list pystr :=
  match s with
  | [] => [rev cur]
  | c :: s' =>
      if c =? sep then rev cur :: str_split_from sep [] s'
      else str_split_from sep (c :: cur) s'
  end.

Definition str_split (sep : N) (s : pystr) : list pystr :=
  str_split_from sep [] s.

(** [s.encode('ascii', errors='replace').decode('ascii')], also what a
    text file opened with [encoding='ascii', errors='replace'] stores. *)
Definition ascii_replace (s : pystr) : pystr :=
  map (fun c => if is_ascii c then c else 63) s.
End Str.

(** [l[:n]] for a Python integer [n]: a negative bound counts from the end. *)
Definition slice_to {A} (n : Z) (l : list A) : list A :=
  if (0 <=? n)%Z then firstn (Z.to_nat n) l
  else firstn (length l - Z.to_nat (- n))%nat l.

(** *** [pathlib.PurePosixPath]

    A path is its [parts] tuple: the root (["/"] or ["//"]) comes first when
    the path is absolute. *)
Definition path := list pystr.

Definition slash : N := 47.
Definition dot : N := 46.

(** The root of a path string ([posixpath.splitroot]): exactly two leading
    slashes are kept, any other number of them is one. *)
Definition str_root (s : pystr) : option pystr :=
  match s with
  | a :: b :: c :: _ =>
      if a =? slash then
        if b =? slash then
          if c =? slash then Some [slash] else Some [slash; slash]
        else Some [slash]
      else None
  | [a; b] =>
      if a =? slash then
        if b =? slash then Some [slash; slash] else Some [slash]
      else None
  | [a] => if a =? slash then Some [slash] else None
  | [] => None
  end.

Definition is_root (p : pystr) : bool :=
  match str_root p with Some _ => true | None => false end.

(** Components of a path string: empty and ["."] components are dropped. *)
Definition str_components (s : pystr) : list pystr :=
  List.filter
    (fun p => negb (match p with [] => true | [c] => c =? dot | _ => false end))
    (str_split slash s).

(** [Path(s)] *)
Definition Path (s : pystr) : path :=
  match str_root s with
  | Some r => r :: str_components s
  | None => str_components s
  end.

Definition is_absolute (p : path) : bool :=
  match p with r :: _ => is_root r | [] => false end.

(** [base / name] for a string [name]: an absolute [name] replaces [base]. *)
Definition joinpath (base : path) (name : pystr) : path :=
  let q := Path name in
  if is_absolute q then q else base ++ q.

(** [p.parent] *)
Definition parent (p : path) : path :=
  match p with
  | [] => []
  | [r] => if is_root r then [r] else []
  | _ => removelast p
  end.

Fixpoint strip_prefix (pre p : path) : option path :=
  match pre, p with
  | [], _ => Some p
  | a :: pre', b :: p' =>
      if decide (a = b) then strip_prefix pre' p' else None
  | _ :: _, [] => None
  end.

(** [p.relative_to(other)]: [None] stands for the [ValueError] raised when
    [p] is not below [other]. *)
Definition relative_to (p other : path) : option path := strip_prefix other p.

(** [str(p)] *)
Definition path_str (p : path) : pystr :=
  match p with
  | [] => [dot]
  | r :: ps => if is_root r then r ++ str_join [slash] ps
               else str_join [slash] p
  end.

End Py.

(** ** A fragment of the Unicode tables

    The code points of Basic Latin and Latin-1 Supplement, with the
    combining diacritical marks their canonical decompositions use. It
    instantiates [Py.Unicode] wherever a statement is evaluated on a
    concrete string. Outside the fragment only the white space is
    classified: every other code point is treated as an uncased symbol
    without decomposition. *)

Module Latin1.
Import Py.

Definition in_range (lo hi c : N) : bool := (lo <=? c) && (c <=? hi).

Definition upper_letter (c : N) : bool :=
  in_range 65 90 c || (in_range 192 222 c && negb (c =? 215)).

Definition lower_char (c : N) : N := if upper_letter c then c + 32 else c.

Definition l1_isspace (c : N) : bool :=
  in_range 9 13 c || in_range 28 32 c || (c =? 133) || (c =? 160)
  || (c =? 5760) || in_range 8192 8202 c || (c =? 8232) || (c =? 8233)
  || (c =? 8239) || (c =? 8287) || (c =? 12288).

Definition l1_isalnum (c : N) : bool :=
  in_range 48 57 c || in_range 65 90 c || in_range 97 122 c
  || (c =? 170) || (c =? 178) || (c =? 179) || (c =? 181) || (c =? 185)
  || (c =? 186) || in_range 188 190 c
  || in_range 192 214 c || in_range 216 246 c || in_range 248 255 c.

(** Canonical decomposition of an upper-case Latin-1 letter: base letter
    and combining mark. *)
Definition decompose_upper (c : N) : option (N * N) :=
  match c with
  | 192 => Some (65, 768) | 193 => Some (65, 769) | 194 => Some (65, 770)
  | 195 => Some (65, 771) | 196 => Some (65, 776) | 197 => Some (65, 778)
  | 199 => Some (67, 807)
  | 200 => Some (69, 768) | 201 => Some (69, 769) | 202 => Some (69, 770)
  | 203 => Some (69, 776)
  | 204 => Some (73, 768) | 205 => Some (73, 769) | 206 => Some (73, 770)
  | 207 => Some (73, 776)
  | 209 => Some (78, 771)
  | 210 => Some (79, 768) | 211 => Some (79, 769) | 212 => Some (79, 770)
  | 213 => Some (79, 771) | 214 => Some (79, 776)
  | 217 => Some (85, 768) | 218 => Some (85, 769) | 219 => Some (85, 770)
  | 220 => Some (85, 776)
  | 221 => Some (89, 769)
  | _ => None
  end.

Definition decompose (c : N) : pystr :=
  match decompose_upper c with
  | Some (b, m) => [b; m]
  | None =>
      if c =? 255 then [121; 776]
      else if in_range 224 253 c then
        match decompose_upper (c - 32) with
        | Some (b, m) => [b + 32; m]
        | None => [c]
        end
      else [c]
  end.

#[export] Instance latin1 : Unicode := {|
  str_lower := map lower_char;
  isspace := l1_isspace;
  isalnum := l1_isalnum;
  normalize_NFD := flat_map decompose;
  category_Mn := in_range 768 879;
|}.

End Latin1.

(** ** [models.py] *)

Module Models.
Import Py.

(** [datetime.datetime]: the fields of the object; formatting and parsing
    are left to the library (see [World.Library]). *)
Record datetime := {
  year : Z; month : Z; day : Z;
  hour : Z; minute : Z; second : Z; microsecond : Z;
  utcoffset : option Z;
}.

(** [url] holds [str(article.url)], the only way the sources read it. *)
Record Article := {
  title : pystr;
  url : pystr;
  author : option pystr;
  published : option datetime;
  summary : option pystr;
  content : option pystr;
  categories : list pystr;
  slug : option pystr;
}.

Record FetchConfig := {
  rss_url : pystr;
  output_dir : path;
  max_articles : Z;
  user_agent : pystr;
  rate_limit_delay : Q;
  fetch_full_content : bool;
  enable_rag : bool;
  rag_app_name : pystr;
  syftbox_config_path : option path;
}.

Section WithUnicode.
Context {U : Unicode}.

(** The [title] field validator. *)
Definition clean_title (v : pystr) : pystr :=
  str_replace carriage_return (lit " ")
    (str_replace newline (lit " ") (str_strip v)).

(** The slug computed from the title, the part of [generate_slug] after
    the early return. *)
Definition slug_of_title (t : pystr) : pystr :=
  let slug := str_lower t in
  let slug := re_sub_class slug_reject [] slug in
  let slug := re_sub_runs slug_sep [hyphen] slug in
  let slug := strip_by (fun c => c =? hyphen) slug in
  firstn 100 slug.

Definition generate_slug (self : Article) : pystr :=
  match slug self with
  | Some s => if truthy s then s else slug_of_title (title self)
  | None => slug_of_title (title self)
  end.

Definition get_file_path (self : Article) (base_dir : path) : path :=
  let filename := generate_slug self ++ lit ".md" in
  joinpath base_dir filename.
End WithUnicode.

End Models.

(** ** The outside world and the effects of the program *)

Module World.
Import Py Models.

(** The exceptions the sources catch. All of them derive from [Exception]. *)
Inductive exn :=
  | OSError            (* mkdir, open, read_text *)
  | ValueError         (* relative_to; datetime(...) *)
  | JSONDecodeError    (* json.load, response.json *)
  | AttributeError     (* a feed entry without title or link *)
  | ValidationError    (* pydantic *)
  | RequestException   (* requests *)
  | ParserError        (* feedparser, newspaper, dateutil *)
  | ClientError.       (* syft_core.Client.load *)

Inductive result (A : Type) :=
  | Ok (a : A)
  | Raise (e : exn).
Arguments Ok {A} a.
Arguments Raise {A} e.

(** The libraries the sources call for dates, HTML and URL validation.
    [None] stands for the exception the call raises. *)
Class Library := {
  (** [dt.isoformat()] *)
  isoformat : datetime -> pystr;
  (** [dt.strftime(fmt)] *)
  strftime : datetime -> pystr -> pystr;
  (** [datetime( *t[:6])] for a feedparser time tuple [t] *)
  datetime_of_tuple : list Z -> option datetime;
  (** [dateutil.parser.parse] *)
  dateutil_parse : pystr -> option datetime;
  (** [BeautifulSoup(s, 'html.parser').get_text()] *)
  html_get_text : pystr -> pystr;
  (** validation of [HttpUrl] followed by [str] *)
  http_url : pystr -> option pystr;
}.

(** *** Files *)

(** The ledger as [json.dump] writes it. [processed_urls] is [None] for a
    JSON object without that key. *)
Record ledger := {
  last_updated : pystr;
  processed_urls : option (list pystr);
}.

(** A file holds text, or a JSON object of the ledger's shape. Text stands
    for every content [json.load] does not turn into a dict. *)
Inductive file :=
  | TextFile (text : pystr)
  | JsonFile (j : ledger).

(** [denied] are the paths on which [mkdir] and [open(_, 'w')] raise
    [OSError]: a read-only file or directory, a name the system rejects. *)
Record FS := {
  files : gmap path file;
  denied : gset path;
}.

(** *** Console, network and clock events *)

Inductive message :=
  | WarnLoadMetadata
  | WarnSaveMetadata
  | Saved (rel : path)
  | Skipping (title : pystr)
  | ErrorWriting (title : pystr)
  | Summary (written skipped : nat).

Inductive event :=
  | FeedParse (url : pystr)
  | HttpGet (url : pystr)
  | HttpPost (url : pystr) (folder_path : pystr)
  | Sleep (seconds : Q)
  | Wrote (p : path).

(** *** What the environment answers *)

(** A feedparser entry: each attribute may be missing. *)
Record entry := {
  e_title : option pystr;
  e_link : option pystr;
  e_published_parsed : option (list Z);
  e_published : option pystr;
  e_tags : option (list pystr);
  e_author : option pystr;
  e_summary : option pystr;
}.

Record parsed_feed := {
  bozo : bool;
  entries : list entry;
}.

(** What [newspaper] extracts from a downloaded page. *)
Record page := {
  text : pystr;
  authors : list pystr;
  publish_date : option datetime;
}.

(** An HTTP exchange: a transport error, or a status code with the JSON
    body if it parses. *)
Inductive response (B : Type) :=
  | Unreachable
  | Status (code : Z) (body : option B).
Arguments Unreachable {B}.
Arguments Status {B} code body.

(** The two marker files of the indexing service at one poll: absent,
    present but unreadable, or present with a text. *)
Record markers := {
  port_file : option (option pystr);
  pid_file : option (option pystr);
}.

Record Env := {
  (** [datetime.now().isoformat()] when the ledger is saved *)
  now_isoformat : pystr;
  (** the working directory, for [Path.absolute] *)
  cwd : path;
  (** [Path.home()] *)
  home : path;
  (** [feedparser.parse(url)]; [None] when it raises *)
  feed : pystr -> option parsed_feed;
  (** the download and extraction of a page; [None] when any step raises *)
  fetch_page : pystr -> option page;
  (** the SyftBox configuration file exists *)
  config_exists : path -> bool;
  (** [Client.load(config).workspace.data_dir]; [None] when it raises *)
  client_data_dir : path -> option path;
  (** the application folder exists *)
  app_folder_exists : path -> bool;
  (** the marker files of an application folder at the [k]-th poll *)
  poll : path -> nat -> markers;
  (** [GET /api/watched-folders]: the [folders] entry of the body,
      [Some None] when the body has no such entry *)
  watched_folders : pystr -> response (option (list pystr));
  (** [POST /api/add-folder] *)
  add_folder : pystr -> pystr -> response unit;
}.

Record world := {
  fs : FS;
  console : list message;
  trace : list event;
}.

(** *** The monad: state of the world, and exceptions *)

Definition M (A : Type) : Type := world -> result A * world.

Definition ret {A} (a : A) : M A := fun w => (Ok a, w).

Definition bind {A B} (m : M A) (k : A -> M B) : M B :=
  fun w => match m w with
           | (Ok a, w') => k a w'
           | (Raise e, w') => (Raise e, w')
           end.

Definition raise {A} (e : exn) : M A := fun w => (Raise e, w).

(** [try: m except Exception as e: h e]. What [m] did to the world before
    raising stays done. *)
Definition try_except {A} (m : M A) (h : exn -> M A) : M A :=
  fun w => match m w with
           | (Ok a, w') => (Ok a, w')
           | (Raise e, w') => h e w'
           end.

(** [console.print]. The console is taken to accept every text: what
    [rich] does with markup tags inside a title is not modelled. *)
Definition print (msg : message) : M unit :=
  fun w => (Ok tt, {| fs := fs w; console := console w ++ [msg]; trace := trace w |}).

Definition emit (ev : event) : M unit :=
  fun w => (Ok tt, {| fs := fs w; console := console w; trace := trace w ++ [ev] |}).

(** [time.sleep]: a negative length is a [ValueError]. *)
Definition sleep (seconds : Q) : M unit :=
  if (Qnum seconds <? 0)%Z then raise ValueError else emit (Sleep seconds).

(** [p.mkdir(parents=True, exist_ok=True)] *)
Definition mkdir (p : path) : M unit :=
  fun w => if decide (p ∈ denied (fs w)) then (Raise OSError, w) else (Ok tt, w).

(** [p.exists()] for a file. *)
Definition exists_file (p : path) : M bool :=
  fun w => (Ok (bool_decide (is_Some (files (fs w) !! p))), w).

(** [open(p, 'r')] and reading the whole file. *)
Definition read_file (p : path) : M file :=
  fun w => match files (fs w) !! p with
           | Some f => (Ok f, w)
           | None => (Raise OSError, w)
           end.

(** [open(p, 'w')] and writing the whole file. *)
Definition write_file (p : path) (f : file) : M unit :=
  fun w => if decide (p ∈ denied (fs w)) then (Raise OSError, w)
           else (Ok tt,
                 {| fs := {| files := <[p := f]> (files (fs w));
                             denied := denied (fs w) |};
                    console := console w;
                    trace := trace w ++ [Wrote p] |}).

Declare Scope monad_scope.
Delimit Scope monad_scope with M.
Notation "x <- m ;; k" := (bind m (fun x => k))
  (at level 100, m at next level, right associativity) : monad_scope.
Notation "m ;; k" := (bind m (fun _ => k))
  (at level 100, right associativity) : monad_scope.

End World.

(** ** [markdown_writer.py] *)

Module Writer.
Import Py Models World.
Local Open Scope monad_scope.

Record MarkdownWriter := {
  output_dir : path;
  metadata_file : path;
  existing_urls : gset pystr;
}.

(** The table of [_normalize_text], in the order of the dict. *)
Definition replacements : list (N * pystr) :=
  [ (8211, lit "-");      (* en dash *)
    (8212, lit "--");     (* em dash *)
    (8216, lit "'");      (* left single quotation mark *)
    (8217, lit "'");      (* right single quotation mark *)
    (8220, [34]);         (* left double quotation mark *)
    (8221, [34]);         (* right double quotation mark *)
    (8230, lit "...");    (* horizontal ellipsis *)
    (160, lit " ");       (* non-breaking space *)
    (8226, lit "*");      (* bullet point *)
    (171, lit "<<");      (* left-pointing double angle quotation mark *)
    (187, lit ">>") ].    (* right-pointing double angle quotation mark *)

Definition placeholder : pystr :=
  lit "*Full article content not available. Please visit the source URL above.*".

Section Render.
Context {U : Unicode} {L : Library}.

Definition _normalize_text (text : pystr) : pystr :=
  if negb (truthy text) then []
  else
    let normalized := normalize_NFD text in
    let ascii_text := List.filter (fun c => negb (category_Mn c)) normalized in
    let ascii_text :=
      fold_left (fun acc r => str_replace (fst r) (snd r) acc)
                replacements ascii_text in
    ascii_replace ascii_text.

Definition _escape_yaml (text : pystr) : pystr :=
  if negb (truthy text) then []
  else
    str_replace carriage_return (lit " ")
      (str_replace newline (lit " ")
         (str_replace 34 [92; 34] text)).

Definition _clean_content (content : pystr) : pystr :=
  if negb (truthy content) then []
  else
    let lines := str_split newline content in
    let cleaned_lines :=
      List.filter truthy (map str_strip lines) in
    str_join [newline; newline] cleaned_lines.

Definition quoted (s : pystr) : pystr :=
  [34] ++ _escape_yaml (_normalize_text s) ++ [34].

(** The lines of the frontmatter. *)
Definition frontmatter_lines (article : Article) : list pystr :=
  [lit "---";
   lit "title: " ++ quoted (title article);
   lit "url: " ++ url article]
  ++ (if truthy_opt (author article)
      then [lit "author: " ++ quoted (default [] (author article))]
      else [])
  ++ match published article with
     | Some d =>
         [lit "published: " ++ isoformat d;
          lit "date: " ++ strftime d (lit "%Y-%m-%d")]
     | None => []
     end
  ++ (if truthy (categories article)
      then lit "categories:"
           :: map (fun category => lit "  - " ++ quoted category)
                  (categories article)
      else [])
  ++ [lit "slug: " ++ generate_slug article;
      lit "---";
      []].

(** The lines from the title down to the summary. *)
Definition heading_lines (article : Article) : list pystr :=
  [lit "# " ++ _normalize_text (title article); []]
  ++ (if truthy_opt (author article) || bool_decide (is_Some (published article))
      then
        let metadata_parts :=
          (if truthy_opt (author article)
           then [lit "**By:** " ++ _normalize_text (default [] (author article))]
           else [])
          ++ match published article with
             | Some d => [lit "**Published:** " ++ strftime d (lit "%B %d, %Y")]
             | None => []
             end in
        [str_join (lit " | ") metadata_parts; []]
      else [])
  ++ (if truthy (categories article)
      then
        let category_tags :=
          map (fun cat => lit "`" ++ _normalize_text cat ++ lit "`")
              (categories article) in
        [lit "**Categories:** " ++ str_join (lit " ") category_tags; []]
      else [])
  ++ [lit "**Source:** [" ++ url article ++ lit "](" ++ url article ++ lit ")";
      [];
      lit "---";
      []]
  ++ (if truthy_opt (summary article)
      then [lit "## Summary"; [];
            _normalize_text (default [] (summary article)); []]
      else []).

(** The last section: the article's text, or the placeholder. *)
Definition content_lines (article : Article) : list pystr :=
  if truthy_opt (content article)
  then [lit "## Article Content"; [];
        _clean_content (_normalize_text (default [] (content article)))]
  else [placeholder].

Definition markdown_lines (article : Article) : list pystr :=
  frontmatter_lines article ++ heading_lines article ++ content_lines article.

Definition _generate_markdown (article : Article) : pystr :=
  str_join [newline] (markdown_lines article).

(** [_load_existing_urls]: the set read from the ledger, empty when the
    file is absent or cannot be read. *)
Definition _load_existing_urls (metadata_file : path) : M (gset pystr) :=
  ex <- exists_file metadata_file ;;
  if ex : bool then
    try_except
      (f <- read_file metadata_file ;;
       match f with
       | JsonFile j => ret (list_to_set (default [] (processed_urls j)))
       | TextFile _ => raise JSONDecodeError
       end)
      (fun _ => print WarnLoadMetadata ;; ret ∅)
  else ret ∅.

(** [MarkdownWriter(output_dir)] *)
Definition init (out : path) : M MarkdownWriter :=
  let metadata := joinpath out (lit ".metadata.json") in
  mkdir out ;;
  urls <- _load_existing_urls metadata ;;
  ret {| output_dir := out; metadata_file := metadata; existing_urls := urls |}.

Definition _save_metadata (env : Env) (self : MarkdownWriter)
    (new_urls : list pystr) : M unit :=
  try_except
    (let metadata :=
       {| last_updated := now_isoformat env;
          processed_urls :=
            Some (elements (existing_urls self ∪ list_to_set new_urls)) |} in
     write_file (metadata_file self) (JsonFile metadata))
    (fun _ => print WarnSaveMetadata).

Definition is_article_processed (self : MarkdownWriter) (article : Article) : bool :=
  bool_decide (url article ∈ existing_urls self).

Definition write_article (self : MarkdownWriter) (article : Article) : M path :=
  let file_path := get_file_path article (output_dir self) in
  mkdir (parent file_path) ;;
  let markdown_content := _generate_markdown article in
  write_file file_path (TextFile (ascii_replace markdown_content)) ;;
  rel <- match relative_to file_path (output_dir self) with
         | Some rel => ret rel
         | None => raise ValueError
         end ;;
  print (Saved rel) ;;
  ret file_path.

(** The local variables of [write_articles]. *)
Record locals := {
  written_files : list path;
  new_urls : list pystr;
  skipped_count : nat;
}.

(** The [for] loop of [write_articles]. *)
Fixpoint write_loop (self : MarkdownWriter) (articles : list Article)
    (v : locals) : M locals :=
  match articles with
  | [] => ret v
  | article :: rest =>
      if is_article_processed self article then
        print (Skipping (title article)) ;;
        write_loop self rest
          {| written_files := written_files v;
             new_urls := new_urls v;
             skipped_count := S (skipped_count v) |}
      else
        v' <- try_except
                (file_path <- write_article self article ;;
                 ret {| written_files := written_files v ++ [file_path];
                        new_urls := new_urls v ++ [url article];
                        skipped_count := skipped_count v |})
                (fun _ => print (ErrorWriting (title article)) ;; ret v) ;;
        write_loop self rest v'
  end.

(** [write_articles], returning all its locals: Python returns
    [written_files] only (see [write_articles]). *)
Definition write_articles_locals (env : Env) (self : MarkdownWriter)
    (articles : list Article) : M locals :=
  v <- write_loop self articles
         {| written_files := []; new_urls := []; skipped_count := 0 |} ;;
  (if truthy (new_urls v) then _save_metadata env self (new_urls v)
   else ret tt) ;;
  print (Summary (length (written_files v)) (skipped_count v)) ;;
  ret v.

Definition write_articles (env : Env) (self : MarkdownWriter)
    (articles : list Article) : M (list path) :=
  v <- write_articles_locals env self articles ;;
  ret (written_files v).
End Render.

End Writer.

(** ** [fetcher.py] *)

Module Fetcher.
Import Py Models World.
Local Open Scope monad_scope.

Section WithLibraries.
Context {U : Unicode} {L : Library}.

(** The publication date of an entry; the outer [None] is an exception
    of [datetime(...)], which leaves [_parse_rss_entry]. *)
Definition entry_published (e : entry) : option (option datetime) :=
  if truthy_opt (e_published_parsed e) then
    match datetime_of_tuple (firstn 6 (default [] (e_published_parsed e))) with
    | Some d => Some (Some d)
    | None => None
    end
  else
    match e_published e with
    | Some s => Some (dateutil_parse s)
    | None => Some None
    end.

(** [_parse_rss_entry]: [None] when anything raised on the way. *)
Definition _parse_rss_entry (e : entry) : option Article :=
  published ← entry_published e;
  let categories := default [] (e_tags e) in
  let author := e_author e in
  let summary :=
    if truthy_opt (e_summary e)
    then Some (str_strip (html_get_text (default [] (e_summary e))))
    else e_summary e in
  title ← e_title e;
  link ← e_link e;
  url ← http_url link;
  Some {| title := clean_title title; url := url; author := author;
          published := published; summary := summary; content := None;
          categories := categories; slug := None |}.

Definition fetch_rss_feed (env : Env) (config : FetchConfig) : M (list Article) :=
  try_except
    (emit (FeedParse (rss_url config)) ;;
     parsed <- match feed env (rss_url config) with
               | Some parsed => ret parsed
               | None => raise ParserError
               end ;;
     ret (omap _parse_rss_entry
            (slice_to (max_articles config) (entries parsed))))
    (fun _ => ret []).

(** Every call that can raise (the request, the status check, the download
    and the parse, answered together by [fetch_page]) comes before the first
    assignment to [article]: the handler returns the article it was given. *)
Definition fetch_article_content (env : Env) (config : FetchConfig)
    (article : Article) : M Article :=
  if negb (fetch_full_content config) then ret article
  else
    try_except
      (emit (HttpGet (url article)) ;;
       news_article <- match fetch_page env (url article) with
                       | Some p => ret p
                       | None => raise RequestException
                       end ;;
       let content' :=
         if truthy (text news_article) then Some (text news_article)
         else content article in
       let author' :=
         if negb (truthy_opt (author article)) && truthy (authors news_article)
         then Some (str_join (lit ", ") (authors news_article))
         else author article in
       let published' :=
         match published article, publish_date news_article with
         | None, Some d => Some d
         | _, _ => published article
         end in
       ret {| title := title article; url := url article; author := author';
              published := published'; summary := summary article;
              content := content'; categories := categories article;
              slug := slug article |})
      (fun _ => ret article).

(** The loop of [fetch_articles]: one download per article, and a delay
    after each but the last. *)
Fixpoint fetch_loop (env : Env) (config : FetchConfig)
    (articles : list Article) : M (list Article) :=
  match articles with
  | [] => ret []
  | article :: rest =>
      article' <- fetch_article_content env config article ;;
      (if truthy rest then sleep (rate_limit_delay config) else ret tt) ;;
      rest' <- fetch_loop env config rest ;;
      ret (article' :: rest')
  end.

Definition fetch_articles (env : Env) (config : FetchConfig) : M (list Article) :=
  articles <- fetch_rss_feed env config ;;
  if negb (truthy articles) then ret []
  else fetch_loop env config articles.
End WithLibraries.

End Fetcher.

(** ** [rag_service.py] and [rag_integration.py] *)

Module Rag.
Import Py Models World.
Local Open Scope monad_scope.

Record RAGServiceDetector := {
  config_path : path;
  rag_service_url : option pystr;
  rag_service_port : option pystr;
  rag_service_pid : option pystr;
}.

Record RAGIntegration := {
  config : FetchConfig;
  detector : RAGServiceDetector;
  service_url : option pystr;
  is_connected : bool;
  folder_registered : bool;
}.

(** [RAGServiceDetector(config_path)]; [home] is [Path.home()]. *)
Definition detector_init (home : path) (config_path : option path)
  : RAGServiceDetector :=
  {| config_path :=
       match config_path with
       | Some p => p
       | None => joinpath (joinpath home (lit ".syftbox")) (lit "config.json")
       end;
     rag_service_url := None;
     rag_service_port := None;
     rag_service_pid := None |}.

(** [RAGIntegration(config)] *)
Definition integration_init (home : path) (config : FetchConfig) : RAGIntegration :=
  {| config := config;
     detector := detector_init home (syftbox_config_path config);
     service_url := None;
     is_connected := false;
     folder_registered := false |}.

(** [p.absolute()] *)
Definition absolute (env : Env) (p : path) : path :=
  if is_absolute p then p else cwd env ++ p.

Section WithUnicode.
Context {U : Unicode}.

Definition app_folder_of (data_dir : path) (app_name : pystr) : path :=
  joinpath (joinpath data_dir (lit "apps")) app_name.

(** The [while] loop of [detect_rag_service]. The clock moves in
    [time.sleep] only, by whole seconds: [remaining] is what is left of
    [max_wait_time], and the loop test fails when it is zero; [k] counts
    the polls. *)
Fixpoint wait_for_service (env : Env) (self : RAGServiceDetector)
    (app_folder : path) (remaining k : nat) : M (bool * RAGServiceDetector) :=
  match remaining with
  | O => ret (false, self)
  | S remaining' =>
      let m := poll env app_folder k in
      match port_file m, pid_file m with
      | Some port, Some pid =>
          match port with
          | None => ret (false, self)
          | Some port_text =>
              let self1 :=
                {| config_path := config_path self;
                   rag_service_url := rag_service_url self;
                   rag_service_port := Some (str_strip port_text);
                   rag_service_pid := rag_service_pid self |} in
              match pid with
              | None => ret (false, self1)
              | Some pid_text =>
                  ret (true,
                       {| config_path := config_path self;
                          rag_service_url :=
                            Some (lit "http://localhost:" ++ str_strip port_text);
                          rag_service_port := Some (str_strip port_text);
                          rag_service_pid := Some (str_strip pid_text) |})
              end
          end
      | _, _ =>
          sleep 1 ;;
          wait_for_service env self app_folder remaining' (S k)
      end
  end.

Definition detect_rag_service (env : Env) (self : RAGServiceDetector)
    (app_name : pystr) (max_wait_time : Z) : M (bool * RAGServiceDetector) :=
  try_except
    (if negb (config_exists env (config_path self)) then ret (false, self)
     else
       data_dir <- match client_data_dir env (config_path self) with
                   | Some d => ret d
                   | None => raise ClientError
                   end ;;
       let app_folder := app_folder_of data_dir app_name in
       if negb (app_folder_exists env app_folder) then ret (false, self)
       else wait_for_service env self app_folder (Z.to_nat max_wait_time) 0)
    (fun _ => ret (false, self)).

Definition with_folder_registered (self : RAGIntegration) : RAGIntegration :=
  {| config := config self; detector := detector self;
     service_url := service_url self; is_connected := is_connected self;
     folder_registered := true |}.

Definition is_folder_registered (env : Env) (self : RAGIntegration)
    (folder_path : path) : M bool :=
  if negb (is_connected self) || negb (truthy_opt (service_url self))
  then ret false
  else
    let base := default [] (service_url self) in
    try_except
      (emit (HttpGet (base ++ lit "/api/watched-folders")) ;;
       match watched_folders env base with
       | Unreachable => raise RequestException
       | Status code body =>
           if (code =? 200)%Z then
             match body with
             | Some folders =>
                 ret (bool_decide (path_str folder_path ∈ default [] folders))
             | None => raise JSONDecodeError
             end
           else ret false
       end)
      (fun _ => ret false).

Definition register_articles_folder (env : Env) (self : RAGIntegration)
    : M (bool * RAGIntegration) :=
  if negb (is_connected self) || negb (truthy_opt (service_url self))
  then ret (false, self)
  else
    let base := default [] (service_url self) in
    try_except
      (let articles_path := absolute env (output_dir (config self)) in
       registered <- is_folder_registered env self articles_path ;;
       if registered : bool then ret (true, with_folder_registered self)
       else
         emit (HttpPost (base ++ lit "/api/add-folder") (path_str articles_path)) ;;
         match add_folder env base (path_str articles_path) with
         | Unreachable => raise RequestException
         | Status code _ =>
             if (code =? 200)%Z then ret (true, with_folder_registered self)
             else ret (false, self)
         end)
      (fun _ => ret (false, self)).

Definition setup_rag_connection (env : Env) (self : RAGIntegration)
    : M (bool * RAGIntegration) :=
  found <- detect_rag_service env (detector self)
             (rag_app_name (config self)) 30 ;;
  if fst found then
    let self1 :=
      {| config := config self; detector := snd found;
         service_url := rag_service_url (snd found);
         is_connected := true;
         folder_registered := folder_registered self |} in
    registered <- register_articles_folder env self1 ;;
    ret (true, snd registered)
  else
    ret (false,
         {| config := config self; detector := snd found;
            service_url := service_url self;
            is_connected := is_connected self;
            folder_registered := folder_registered self |}).
End WithUnicode.

End Rag.

(** ** [cli.py] *)

Module Cli.
Import Py Models World.
Local Open Scope monad_scope.

(** The options of the [fetch] command, after [click] parsed them. *)
Record options := {
  opt_url : pystr;
  opt_output_dir : path;
  opt_max_articles : Z;
  opt_no_content : bool;
  opt_rate_limit : Q;
  opt_user_agent : pystr;
  opt_rag_app_name : pystr;
  opt_syftbox_config : option path;
}.

Definition config_of (o : options) : FetchConfig :=
  {| rss_url := opt_url o;
     output_dir := opt_output_dir o;
     max_articles := opt_max_articles o;
     user_agent := opt_user_agent o;
     rate_limit_delay := opt_rate_limit o;
     fetch_full_content := negb (opt_no_content o);
     enable_rag := true;
     rag_app_name := opt_rag_app_name o;
     syftbox_config_path := opt_syftbox_config o |}.

(** How the command ends: it returns, or raises [click.Abort]. *)
Inductive exit := Returned | Aborted.

Section WithLibraries.
Context {U : Unicode} {L : Library}.

(** The body of the [try] block of [main]. *)
Definition run (env : Env) (config : FetchConfig) : M unit :=
  writer <- Writer.init (output_dir config) ;;
  let rag_integration := Rag.integration_init (home env) config in
  connected <- Rag.setup_rag_connection env rag_integration ;;
  if negb (fst connected) then ret tt
  else
    articles <- Fetcher.fetch_articles env config ;;
    if negb (truthy articles) then ret tt
    else
      written_files <- Writer.write_articles env writer articles ;;
      ret tt.

Definition main (env : Env) (o : options) (w : world) : exit * world :=
  match run env (config_of o) w with
  | (Ok _, w') => (Returned, w')
  | (Raise _, w') => (Aborted, w')
  end.
End WithLibraries.

End Cli.

(** ** Sample libraries, environments and inputs

    The statements below are evaluated on these. *)

Module Sample.
Import Py Latin1 Models World.

(** Decimal digits of [n], [width] of them. *)
Definition dec (width : nat) (n : Z) : pystr :=
  map (fun i => 48 + Z.to_N ((n / 10 ^ Z.of_nat i) mod 10)%Z) (rev (seq 0 width)).

Definition month_name (m : Z) : pystr :=
  nth (Z.to_nat (m - 1))
      (map lit ["January"; "February"; "March"; "April"; "May"; "June"; "July";
                "August"; "September"; "October"; "November"; "December"]%string)
      [].

Definition iso_date (d : datetime) : pystr :=
  dec 4 (year d) ++ lit "-" ++ dec 2 (month d) ++ lit "-" ++ dec 2 (day d).

Definition starts_with (pre s : pystr) : bool :=
  bool_decide (firstn (length pre) s = pre).

(** Naive datetimes without microseconds, the two formats of the renderer,
    six-field time tuples, text without markup and http(s) URLs. *)
#[export] Instance library : Library := {|
  isoformat d :=
    iso_date d ++ lit "T" ++ dec 2 (hour d) ++ lit ":" ++ dec 2 (minute d)
    ++ lit ":" ++ dec 2 (second d);
  strftime d fmt :=
    if bool_decide (fmt = lit "%Y-%m-%d") then iso_date d
    else if bool_decide (fmt = lit "%B %d, %Y")
         then month_name (month d) ++ lit " " ++ dec 2 (day d) ++ lit ", "
              ++ dec 4 (year d)
         else fmt;
  datetime_of_tuple t :=
    match t with
    | [y; m; d; h; mi; s] =>
        Some {| year := y; month := m; day := d; hour := h; minute := mi;
                second := s; microsecond := 0; utcoffset := None |}
    | _ => None
    end;
  dateutil_parse _ := None;
  html_get_text s := s;
  http_url s :=
    if starts_with (lit "http://") s || starts_with (lit "https://") s
    then Some s else None;
|}.

Definition article (title url : pystr) (slug : option pystr) : Article :=
  {| title := title; url := url; author := None; published := None;
     summary := None; content := None; categories := []; slug := slug |}.

Definition url_a : pystr := lit "https://tempo.co/a".
Definition url_b : pystr := lit "https://tempo.co/b".
Definition url_c : pystr := lit "https://tempo.co/c".

(** ["Hello, World! — A Test"], with its em dash. *)
Definition hello_title : pystr :=
  lit "Hello, World! " ++ [8212] ++ lit " A Test".

Definition hello : Article := article hello_title url_c None.
Definition snake : Article := article (lit "a_b") url_a None.
Definition cafe : Article := article (lit "Caf" ++ [233]) url_b None.
Definition empty_slug : Article := article (lit "Hello") url_a (Some []).
Definition preset : Article := article (lit "Hello") url_a (Some (lit "My Slug!")).
Definition rooted : Article := article (lit "Hello") url_a (Some (lit "/tmp/x")).

Definition articles_dir : path := Path (lit "articles").

Definition ledger_ab : ledger :=
  {| last_updated := lit "2025-01-01T00:00:00";
     processed_urls := Some [url_a; url_b] |}.

(** An output directory holding a ledger with two URLs. *)
Definition fs_ab : FS :=
  {| files := {[ joinpath articles_dir (lit ".metadata.json") := JsonFile ledger_ab ]};
     denied := ∅ |}.

Definition fs_empty : FS := {| files := ∅; denied := ∅ |}.



Definition world_of (f : FS) : world := {| fs := f; console := []; trace := [] |}.

Definition entry_of (title link : pystr) : entry :=
  {| e_title := Some title; e_link := Some link; e_published_parsed := None;
     e_published := None; e_tags := None; e_author := None; e_summary := None |}.

Definition three_entries : parsed_feed :=
  {| bozo := false;
     entries := [entry_of (lit "One") url_a; entry_of (lit "Two") url_b;
                 entry_of (lit "Three") url_c] |}.

Definition no_markers : markers := {| port_file := None; pid_file := None |}.
Definition both_markers : markers :=
  {| port_file := Some (Some (lit "8080")); pid_file := Some (Some (lit "4242")) |}.

(** An environment where the feed has three entries, no page can be
    downloaded, and the indexing service never writes its marker files. *)
Definition env_undetected : Env :=
  {| now_isoformat := lit "2025-06-01T12:00:00";
     cwd := Path (lit "/home/user");
     home := Path (lit "/home/user");
     feed := fun _ => Some three_entries;
     fetch_page := fun _ => None;
     config_exists := fun _ => true;
     client_data_dir := fun _ => Some (Path (lit "/home/user/SyftBox"));
     app_folder_exists := fun _ => true;
     poll := fun _ _ => no_markers;
     watched_folders := fun _ => Status 200 (Some (Some []));
     add_folder := fun _ _ => Status 200 (Some tt) |}.

(** The same with the marker files there from the third poll on. *)
Definition env_detected : Env :=
  {| now_isoformat := now_isoformat env_undetected;
     cwd := cwd env_undetected;
     home := home env_undetected;
     feed := feed env_undetected;
     fetch_page := fetch_page env_undetected;
     config_exists := config_exists env_undetected;
     client_data_dir := client_data_dir env_undetected;
     app_folder_exists := app_folder_exists env_undetected;
     poll := fun _ k => if (k <? 2)%nat then no_markers else both_markers;
     watched_folders := watched_folders env_undetected;
     add_folder := add_folder env_undetected |}.

(** The same with a feed that cannot be parsed. *)
Definition env_no_feed : Env :=
  {| now_isoformat := now_isoformat env_detected;
     cwd := cwd env_detected;
     home := home env_detected;
     feed := fun _ => None;
     fetch_page := fetch_page env_detected;
     config_exists := config_exists env_detected;
     client_data_dir := client_data_dir env_detected;
     app_folder_exists := app_folder_exists env_detected;
     poll := poll env_detected;
     watched_folders := watched_folders env_detected;
     add_folder := add_folder env_detected |}.

(** ["Café — déjà vu…"] *)
Definition accented : pystr :=
  lit "Caf" ++ [233] ++ lit " " ++ [8212] ++ lit " d" ++ [233]
  ++ lit "j" ++ [224] ++ lit " vu" ++ [8230].

Definition options_default : Cli.options :=
  {| Cli.opt_url := lit "https://rss.tempo.co/";
     Cli.opt_output_dir := articles_dir;
     Cli.opt_max_articles := 50;
     Cli.opt_no_content := false;
     Cli.opt_rate_limit := 1;
     Cli.opt_user_agent := lit "The Tempo News Fetcher 1.0";
     Cli.opt_rag_app_name := lit "com.github.openmined.local-rag";
     Cli.opt_syftbox_config := None |}.

Definition config_default : FetchConfig := Cli.config_of options_default.

Definition config_max (n : Z) : FetchConfig :=
  {| rss_url := rss_url config_default;
     output_dir := output_dir config_default;
     max_articles := n;
     user_agent := user_agent config_default;
     rate_limit_delay := rate_limit_delay config_default;
     fetch_full_content := fetch_full_content config_default;
     enable_rag := enable_rag config_default;
     rag_app_name := rag_app_name config_default;
     syftbox_config_path := syftbox_config_path config_default |}.

(** The integration [RAGIntegration(config)] builds. *)
Definition integration : Rag.RAGIntegration :=
  Rag.integration_init (home env_undetected) config_default.

(** A writer over [fs_ab], as [MarkdownWriter("articles")] builds it. *)
Definition writer_ab : Writer.MarkdownWriter :=
  {| Writer.output_dir := articles_dir;
     Writer.metadata_file := joinpath articles_dir (lit ".metadata.json");
     Writer.existing_urls := {[ url_a; url_b ]} |}.

End Sample.

(** ** Vocabulary of the statements *)

Module Spec.
Import Py Models World.

(** The characters of [string.punctuation]. *)
Definition ascii_punctuation (c : N) : bool :=
  ((33 <=? c) && (c <=? 47)) || ((58 <=? c) && (c <=? 64))
  || ((91 <=? c) && (c <=? 96)) || ((123 <=? c) && (c <=? 126)).

Definition all_ascii (s : pystr) : Prop := Forall (fun c => is_ascii c = true) s.

Section WithUnicode.
Context {U : Unicode}.

(** A character that lowercasing leaves alone. *)
Definition lowercase_char (c : N) : Prop := str_lower [c] = [c].

(** What the specification promises of every slug: lowercase, at most
    100 characters, ASCII, and no punctuation but hyphens. *)
Definition slug_as_specified (s : pystr) : Prop :=
  Forall lowercase_char s
  /\ (length s <= 100)%nat
  /\ all_ascii s
  /\ Forall (fun c => ascii_punctuation c = true -> c = hyphen) s.

(** What holds of every slug computed from a title: lowercase, at most
    100 characters, made of hyphens and of word characters (letters,
    digits and the underscore, ASCII or not) that are not white space. *)
Definition slug_as_computed (s : pystr) : Prop :=
  Forall lowercase_char s
  /\ (length s <= 100)%nat
  /\ Forall (fun c => c = hyphen \/ (re_word c = true /\ re_space c = false)) s
  /\ (forall s', s <> hyphen :: s').
End WithUnicode.

Section Writes.
Context {U : Unicode} {L : Library}.
Import Writer.

(** The writer is as its constructor leaves it. *)
Definition constructed (self : MarkdownWriter) : Prop :=
  metadata_file self = joinpath (output_dir self) (lit ".metadata.json").

Definition doc_path (self : MarkdownWriter) (a : Article) : path :=
  get_file_path a (output_dir self).

Definition rendering (a : Article) : file :=
  TextFile (ascii_replace (_generate_markdown a)).

(** The system lets [write_article] create the article's file, given
    the set of denied paths. *)
Definition opens (self : MarkdownWriter) (d : gset path) (a : Article) : bool :=
  bool_decide (parent (doc_path self a) ∉ d)
  && bool_decide (doc_path self a ∉ d).

(** [write_article] returns: the file is created, and it lies below the
    output directory. *)
Definition returns (self : MarkdownWriter) (d : gset path) (a : Article) : bool :=
  opens self d a
  && bool_decide (is_Some (relative_to (doc_path self a) (output_dir self))).

Definition is_new (self : MarkdownWriter) (a : Article) : bool :=
  negb (is_article_processed self a).

(** The article is not in the ledger and [write_article] returns. *)
Definition written (self : MarkdownWriter) (d : gset path) (a : Article) : bool :=
  is_new self a && returns self d a.

(** The article is not in the ledger and its file is created. *)
Definition created (self : MarkdownWriter) (d : gset path) (a : Article) : bool :=
  is_new self a && opens self d a.

Definition write_doc (self : MarkdownWriter) (m : gmap path file) (a : Article)
  : gmap path file :=
  <[doc_path self a := rendering a]> m.

(** The one line [write_articles] prints for an article. *)
Definition item_message (self : MarkdownWriter) (d : gset path) (a : Article)
  : message :=
  if is_article_processed self a then Skipping (title a)
  else if opens self d a then
    match relative_to (doc_path self a) (output_dir self) with
    | Some rel => Saved rel
    | None => ErrorWriting (title a)
    end
  else ErrorWriting (title a).

(** The URL set the ledger file holds. *)
Definition persisted_urls (f : FS) (metadata_file : path) : gset pystr :=
  match files f !! metadata_file with
  | Some (JsonFile j) => list_to_set (default [] (processed_urls j))
  | _ => ∅
  end.


End Writes.

Section Feed.
Context {U : Unicode} {L : Library}.

(** C7 as specified: [fetch_rss_feed] returns, with nothing when the
    feed cannot be fetched, and with at most [max_articles] articles. *)
Definition feed_as_specified (env : Env) (config : FetchConfig) (w : world)
  : Prop :=
  exists articles w',
    Fetcher.fetch_rss_feed env config w = (Ok articles, w')
    /\ (feed env (rss_url config) = None -> articles = [])
    /\ (Z.of_nat (length articles) <= max_articles config)%Z.
End Feed.

(** An event that is a pause of the program. *)
Definition is_sleep (ev : event) : bool :=
  match ev with Sleep _ => true | _ => false end.

(** The events of [w'] are those of [w] and later ones. *)
Definition extends (w w' : world) : Prop :=
  exists tr, trace w' = trace w ++ tr.

(** The world after [n] pauses of one second and nothing else. *)
Definition after_sleeps (n : nat) (w : world) : world :=
  {| fs := fs w; console := console w;
     trace := trace w ++ replicate n (Sleep 1) |}.

Definition markers_absent (m : markers) : Prop :=
  port_file m = None /\ pid_file m = None.

(** Neither marker file of the application is there at any of the first
    [n] polls, wherever the SyftBox client places the application. *)
Definition absent_during {U : Unicode} (env : Env) (config_path : path)
    (app_name : pystr) (n : nat) : Prop :=
  forall data_dir k,
    client_data_dir env config_path = Some data_dir ->
    (k < n)%nat ->
    markers_absent (poll env (Rag.app_folder_of data_dir app_name) k).

End Spec.

(** ** Status queries: the rest of [rag_service.py] and [rag_integration.py] *)

Module Queries.
Import Py Models World Rag.
Local Open Scope monad_scope.

(** The JSON values the service answers with; an object keeps the order
    of its keys, as a Python dict does. *)
#[local] Unset Elimination Schemes.
Inductive json :=
  | JNull
  | JBool (b : bool)
  | JNumber (q : Q)
  | JString (s : pystr)
  | JArray (l : list json)
  | JObject (d : list (pystr * json)).
#[local] Set Elimination Schemes.

(** The status routes of the indexing service, by URL. The body of an
    answer is [None] when [response.json()] raises. *)
Record Service := {
  get_health : pystr -> response unit;
  get_stats : pystr -> response json;
  get_indexing : pystr -> response json;
}.

(** [d.get(key, default)] on a list of items: the first item with the key. *)
Fixpoint items_get (d : list (pystr * json)) (key : pystr) (default : json) : json :=
  match d with
  | [] => default
  | (k, v) :: d' => if decide (k = key) then v else items_get d' key default
  end.

(** [j.get(key, default)]: only a dict has the method. *)
Definition json_get (j : json) (key : pystr) (default : json) : M json :=
  match j with
  | JObject d => ret (items_get d key default)
  | _ => raise AttributeError
  end.

Definition json_of_option (o : option pystr) : json :=
  match o with Some s => JString s | None => JNull end.

(** *** [RAGServiceDetector] *)

Definition is_service_available (self : RAGServiceDetector) : bool :=
  bool_decide (is_Some (rag_service_url self)).

Definition get_service_url (self : RAGServiceDetector) : option pystr :=
  rag_service_url self.

Definition verify_service_health (srv : Service) (self : RAGServiceDetector)
  : M bool :=
  if negb (truthy_opt (rag_service_url self)) then ret false
  else
    let url := default [] (rag_service_url self) ++ lit "/health" in
    try_except
      (emit (HttpGet url) ;;
       match get_health srv url with
       | Unreachable => raise RequestException
       | Status code _ => ret (code =? 200)%Z
       end)
      (fun _ => ret false).

(** The dict of [RAGServiceDetector.get_service_info]. *)
Record service_info := {
  info_url : option pystr;
  info_port : option pystr;
  info_pid : option pystr;
  info_available : bool;
  info_healthy : bool;
}.

Definition detector_service_info (srv : Service) (self : RAGServiceDetector)
  : M service_info :=
  healthy <- (if is_service_available self then verify_service_health srv self
              else ret false) ;;
  ret {| info_url := rag_service_url self;
         info_port := rag_service_port self;
         info_pid := rag_service_pid self;
         info_available := is_service_available self;
         info_healthy := healthy |}.

(** *** [RAGIntegration] *)

Definition default_stats : json :=
  JObject [(lit "total_documents", JNumber 0); (lit "watched_folders", JNumber 0)].

Definition status_of (status : pystr) : json :=
  JObject [(lit "status", JString status); (lit "queue_size", JNumber 0)].

Definition get_rag_stats (srv : Service) (self : RAGIntegration) : M json :=
  if negb (is_connected self) || negb (truthy_opt (service_url self))
  then ret default_stats
  else
    let url := default [] (service_url self) ++ lit "/api/stats" in
    try_except
      (emit (HttpGet url) ;;
       match get_stats srv url with
       | Unreachable => raise RequestException
       | Status code body =>
           if (code =? 200)%Z then
             match body with
             | Some j => ret j
             | None => raise JSONDecodeError
             end
           else ret default_stats
       end)
      (fun _ => ret default_stats).

Definition get_indexing_status (srv : Service) (self : RAGIntegration) : M json :=
  if negb (is_connected self) || negb (truthy_opt (service_url self))
  then ret (status_of (lit "disconnected"))
  else
    let url := default [] (service_url self) ++ lit "/api/indexing-status" in
    try_except
      (emit (HttpGet url) ;;
       match get_indexing srv url with
       | Unreachable => raise RequestException
       | Status code body =>
           if (code =? 200)%Z then
             match body with
             | Some j => ret j
             | None => raise JSONDecodeError
             end
           else ret (status_of (lit "unknown"))
       end)
      (fun _ => ret (status_of (lit "error"))).

(** [get_rag_status]: a detector object is always true. *)
Definition get_rag_status (srv : Service) (self : RAGIntegration) : M service_info :=
  detector_service_info srv (detector self).

(** [RAGIntegration.get_service_info]: the items of the dict, in order. *)
Definition get_service_info (env : Env) (srv : Service) (self : RAGIntegration)
  : M (list (pystr * json)) :=
  healthy <- (if is_connected self
              then verify_service_health srv (detector self)
              else ret false) ;;
  let base_info :=
    [(lit "url", json_of_option (rag_service_url (detector self)));
     (lit "port", json_of_option (rag_service_port (detector self)));
     (lit "pid", json_of_option (rag_service_pid (detector self)));
     (lit "available", JBool (is_connected self));
     (lit "healthy", JBool healthy);
     (lit "folder_registered", JBool (folder_registered self))] in
  if is_connected self then
    stats <- get_rag_stats srv self ;;
    indexing_status <- get_indexing_status srv self ;;
    total_documents <- json_get stats (lit "total_documents") (JNumber 0) ;;
    watched_folders <- json_get stats (lit "watched_folders") (JNumber 0) ;;
    status <- json_get indexing_status (lit "status") (JString (lit "unknown")) ;;
    queue_size <- json_get indexing_status (lit "queue_size") (JNumber 0) ;;
    ret (base_info
         ++ [(lit "total_documents", total_documents);
             (lit "watched_folders_count", watched_folders);
             (lit "indexing_status", status);
             (lit "indexing_queue_size", queue_size);
             (lit "articles_folder_path",
              JString (path_str (absolute env (output_dir (config self)))))])
  else ret base_info.

End Queries.

(** ** Vocabulary of the further statements *)

Module Props.
Import Py Models World.

(** What [_escape_yaml] makes of one character. *)
Definition escape_char (c : N) : pystr :=
  if c =? 34 then [92; 34]
  else if c =? newline then [32]
  else if c =? carriage_return then [32]
  else [c].

(** Every double quote of the string comes right after a backslash;
    [after_backslash] tells whether the previous character was one. *)
Fixpoint quotes_escaped_from (after_backslash : bool) (s : pystr) : bool :=
  match s with
  | [] => true
  | c :: s' =>
      (if c =? 34 then after_backslash else true)
      && quotes_escaped_from (c =? 92) s'
  end.

Definition quotes_escaped (s : pystr) : bool := quotes_escaped_from false s.

(** A string that is one line. *)
Definition one_line (s : pystr) : Prop :=
  (newline ∉ s) /\ (carriage_return ∉ s).

(** A string without white space at either end. *)
Definition stripped {U : Unicode} (s : pystr) : Prop :=
  (forall c s', s = c :: s' -> isspace c = false)
  /\ (forall c s', s = s' ++ [c] -> isspace c = false).


(** The fields of an article a download never changes. *)
Definition same_identity (a b : Article) : Prop :=
  title b = title a /\ url b = url a /\ summary b = summary a
  /\ categories b = categories a /\ slug b = slug a.

(** [b] keeps what [a] already had of author, date and content. *)
Definition keeps_known (a b : Article) : Prop :=
  (truthy_opt (author a) = true -> author b = author a)
  /\ (is_Some (published a) -> published b = published a)
  /\ (content b = content a \/ truthy_opt (content b) = true).



(** The service is not ready at a poll: one of its marker files is not
    there. *)
Definition not_ready (m : markers) : Prop :=
  port_file m = None \/ pid_file m = None.

(** The service answers that it watches [folder] already. *)
Definition listed (env : Env) (base folder : pystr) : bool :=
  match watched_folders env base with
  | Status code (Some folders) =>
      (code =? 200)%Z && bool_decide (folder ∈ default [] folders)
  | _ => false
  end.

(** The service accepts the registration of [folder]. *)
Definition accepted (env : Env) (base folder : pystr) : bool :=
  match add_folder env base folder with
  | Status code _ => (code =? 200)%Z
  | Unreachable => false
  end.

(** The requests of [register_articles_folder]. *)
Definition registration_events (env : Env) (base folder : pystr) : list event :=
  HttpGet (base ++ lit "/api/watched-folders")
  :: (if listed env base folder then []
      else [HttpPost (base ++ lit "/api/add-folder") folder]).

(** A JSON value that is an object, a dict once parsed. *)
Definition is_object (j : Queries.json) : bool :=
  match j with Queries.JObject _ => true | _ => false end.

(** The route answers 200 with a JSON value that is not an object. *)
Definition answers_non_object (r : response Queries.json) : Prop :=
  exists j, r = Status 200 (Some j) /\ is_object j = false.

End Props.

(** ** Further samples *)

Module Sample2.
Import Py Latin1 Models World Sample.

(** A title with quotes and a line break. *)
Definition quoted_title : pystr :=
  lit "He said " ++ [34] ++ lit "hi" ++ [34; 10] ++ lit "twice".


Definition page_of (text : pystr) : page :=
  {| text := text; authors := [lit "Ann"; lit "Bob"]; publish_date := None |}.

(** The environment of [env_detected] where every page downloads. *)
Definition env_pages : Env :=
  {| now_isoformat := now_isoformat env_detected;
     cwd := cwd env_detected;
     home := home env_detected;
     feed := feed env_detected;
     fetch_page := fun _ => Some (page_of (lit "Body text"));
     config_exists := config_exists env_detected;
     client_data_dir := client_data_dir env_detected;
     app_folder_exists := app_folder_exists env_detected;
     poll := poll env_detected;
     watched_folders := watched_folders env_detected;
     add_folder := add_folder env_detected |}.

(** The same where the folder is already watched. *)
Definition env_watched : Env :=
  {| now_isoformat := now_isoformat env_detected;
     cwd := cwd env_detected;
     home := home env_detected;
     feed := feed env_detected;
     fetch_page := fetch_page env_detected;
     config_exists := config_exists env_detected;
     client_data_dir := client_data_dir env_detected;
     app_folder_exists := app_folder_exists env_detected;
     poll := poll env_detected;
     watched_folders :=
       fun _ => Status 200 (Some (Some [lit "/home/user/articles"]));
     add_folder := fun _ _ => Status 500 None |}.

(** The same where the service refuses the registration. *)
Definition env_refused : Env :=
  {| now_isoformat := now_isoformat env_detected;
     cwd := cwd env_detected;
     home := home env_detected;
     feed := feed env_detected;
     fetch_page := fetch_page env_detected;
     config_exists := config_exists env_detected;
     client_data_dir := client_data_dir env_detected;
     app_folder_exists := app_folder_exists env_detected;
     poll := poll env_detected;
     watched_folders := fun _ => Unreachable;
     add_folder := fun _ _ => Status 500 None |}.


(** A detector that found the service on port 8080. *)
Definition detector_found : Rag.RAGServiceDetector :=
  {| Rag.config_path := Path (lit "/home/user/.syftbox/config.json");
     Rag.rag_service_url := Some (lit "http://localhost:8080");
     Rag.rag_service_port := Some (lit "8080");
     Rag.rag_service_pid := Some (lit "4242") |}.

Definition integration_connected : Rag.RAGIntegration :=
  {| Rag.config := config_default;
     Rag.detector := detector_found;
     Rag.service_url := Some (lit "http://localhost:8080");
     Rag.is_connected := true;
     Rag.folder_registered := false |}.

(** A service that is up, and answers the stats route with a list. *)
Definition service_odd : Queries.Service :=
  {| Queries.get_health := fun _ => Status 200 None;
     Queries.get_stats := fun _ => Status 200 (Some (Queries.JArray []));
     Queries.get_indexing := fun _ => Status 503 None |}.


(** A feed whose second entry has no link. *)
Definition broken_feed : parsed_feed :=
  {| bozo := true;
     entries :=
       [entry_of (lit "One") url_a;
        {| e_title := Some (lit "Two"); e_link := None;
           e_published_parsed := None; e_published := None; e_tags := None;
           e_author := None; e_summary := None |};
        entry_of (lit "Three") url_c] |}.

Definition env_broken_feed : Env :=
  {| now_isoformat := now_isoformat env_detected;
     cwd := cwd env_detected;
     home := home env_detected;
     feed := fun _ => Some broken_feed;
     fetch_page := fetch_page env_detected;
     config_exists := config_exists env_detected;
     client_data_dir := client_data_dir env_detected;
     app_folder_exists := app_folder_exists env_detected;
     poll := poll env_detected;
     watched_folders := watched_folders env_detected;
     add_folder := add_folder env_detected |}.


End Sample2.

(** * Properties *)

Import Py Models World.

(** ** Strings *)

Section StringFacts.
Context {U : Unicode}.

Lemma elem_of_re_sub_class_delete cls s c :
  c ∈ re_sub_class cls [] s -> c ∈ s /\ cls c = false.
Proof.
  unfold re_sub_class. induction s as [|x s IH]; simpl.
  - intros H. inversion H.
  - destruct (cls x) eqn:E; simpl.
    + intros H. destruct (IH H) as [? ?]. split; [by right | done].
    + rewrite elem_of_cons. intros [-> | H].
      * split; [by left | done].
      * destruct (IH H) as [? ?]. split; [by right | done].
Qed.

Lemma elem_of_re_sub_runs_from cls repl b s c :
  c ∈ re_sub_runs_from cls repl b s -> c ∈ repl \/ (c ∈ s /\ cls c = false).
Proof.
  revert b. induction s as [|x s IH]; simpl; intros b.
  - intros H. inversion H.
  - destruct (cls x) eqn:E.
    + rewrite elem_of_app. intros [H | H].
      * left. destruct b; [inversion H | done].
      * destruct (IH _ H) as [? | [? ?]]; [by left | right].
        split; [by right | done].
    + rewrite elem_of_cons. intros [-> | H].
      * right. split; [by left | done].
      * destruct (IH _ H) as [? | [? ?]]; [by left | right].
        split; [by right | done].
Qed.

Lemma lstrip_by_suffix p s : exists pre, s = pre ++ lstrip_by p s.
Proof.
  induction s as [|x s [pre IH]]; simpl.
  - by exists [].
  - destruct (p x).
    + exists (x :: pre). simpl. by f_equal.
    + by exists [].
Qed.

Lemma elem_of_lstrip_by p s c : c ∈ lstrip_by p s -> c ∈ s.
Proof.
  destruct (lstrip_by_suffix p s) as [pre E]. intros H.
  rewrite E. apply elem_of_app. by right.
Qed.

Lemma lstrip_by_head p s c s' : lstrip_by p s = c :: s' -> p c = false.
Proof.
  induction s as [|x s IH]; simpl; [done|].
  destruct (p x) eqn:E; [done|]. intros [= <- _]. done.
Qed.

Lemma elem_of_strip_by p s c : c ∈ strip_by p s -> c ∈ s.
Proof.
  unfold strip_by, rstrip_by. intros H.
  apply list_elem_of_In, in_rev, list_elem_of_In, elem_of_lstrip_by in H.
  apply list_elem_of_In, in_rev, list_elem_of_In in H.
  by apply elem_of_lstrip_by in H.
Qed.

(** Stripping the end of a string keeps its first character. *)
Lemma rstrip_by_head p s c s' :
  rstrip_by p s = c :: s' -> exists s'', s = c :: s''.
Proof.
  unfold rstrip_by. intros H.
  destruct (lstrip_by_suffix p (rev s)) as [pre E].
  assert (s = rev (lstrip_by p (rev s)) ++ rev pre) as Hs.
  { rewrite <- rev_app_distr, <- E. by rewrite rev_involutive. }
  rewrite H in Hs. simpl in Hs. eauto.
Qed.

Lemma strip_by_head p s c s' : strip_by p s = c :: s' -> p c = false.
Proof.
  unfold strip_by. intros H.
  destruct (rstrip_by_head _ _ _ _ H) as [s'' E].
  by apply lstrip_by_head in E.
Qed.

Lemma str_replace_absent old new s : old ∉ s -> str_replace old new s = s.
Proof.
  unfold str_replace. induction s as [|x s IH]; simpl; [done|].
  rewrite not_elem_of_cons. intros [Hne Hs].
  destruct (N.eqb_spec x old); [congruence|]. simpl. by rewrite IH.
Qed.

Lemma ascii_replace_ascii s : Spec.all_ascii (ascii_replace s).
Proof.
  unfold Spec.all_ascii, ascii_replace. apply Forall_forall. intros c Hc.
  apply list_elem_of_fmap in Hc as [x [-> _]].
  destruct (is_ascii x) eqn:E; done.
Qed.

Lemma ascii_replace_fixed s : Spec.all_ascii s -> ascii_replace s = s.
Proof.
  unfold Spec.all_ascii, ascii_replace.
  induction 1 as [|x s Hx _ IH]; simpl; [done|]. by rewrite Hx, IH.
Qed.
End StringFacts.

(** ** [generate_slug] and [get_file_path] *)

Section SlugFacts.
Context {U : Unicode}.

Lemma slug_of_title_length t : (length (slug_of_title t) <= 100)%nat.
Proof. unfold slug_of_title. rewrite length_take. lia. Qed.

(** Every character of the slug is the hyphen of a collapsed run, or a
    character of the lowercased title that is a word character, not
    white space and not a hyphen. *)
Lemma slug_of_title_chars t c :
  c ∈ slug_of_title t ->
  c = hyphen
  \/ (c ∈ str_lower t /\ re_word c = true /\ re_space c = false).
Proof.
  unfold slug_of_title. intros H.
  apply subseteq_take, elem_of_strip_by in H.
  apply elem_of_re_sub_runs_from in H as [H | [H Hsep]].
  - left. by apply list_elem_of_singleton in H.
  - right. apply elem_of_re_sub_class_delete in H as [H Hrej].
    unfold slug_sep in Hsep. unfold slug_reject in Hrej.
    apply orb_false_iff in Hsep as [Hh Hs].
    apply negb_false_iff in Hrej. rewrite Hs, Hh in Hrej.
    rewrite !orb_false_r in Hrej. done.
Qed.

Lemma slug_of_title_head t s' : slug_of_title t <> hyphen :: s'.
Proof.
  unfold slug_of_title. intros H.
  destruct (strip_by _ _) as [|c s] eqn:E; [done|].
  simpl in H. injection H as -> _.
  apply strip_by_head in E. done.
Qed.

Lemma generate_slug_unset a :
  truthy_opt (slug a) = false -> generate_slug a = slug_of_title (title a).
Proof.
  unfold generate_slug. destruct (slug a) as [[|c s]|]; simpl; done.
Qed.
End SlugFacts.

(** C3, as amended. Without a preset slug, [generate_slug] lowercases the
    title, deletes the characters outside word / space / hyphen, replaces
    each run of spaces and hyphens by one hyphen, trims hyphens at both ends
    and keeps the first 100 characters. The result is lowercase, at most 100
    characters long, does not begin with a hyphen, and consists of hyphens
    and word characters only: letters and digits of any script, and the
    underscore. It is ASCII when the lowercased title is. The two
    hypotheses on [str.lower] say that it leaves alone the characters it
    produces, and the hyphen. *)
Theorem generate_slug_from_title {U : Unicode} (a : Article) :
  truthy_opt (slug a) = false ->
  (forall s c, c ∈ str_lower s -> Spec.lowercase_char c) ->
  Spec.lowercase_char hyphen ->
  generate_slug a =
    firstn 100
      (strip_by (fun c => c =? hyphen)
         (re_sub_runs slug_sep [hyphen]
            (re_sub_class slug_reject [] (str_lower (title a)))))
  /\ Spec.slug_as_computed (generate_slug a)
  /\ (Spec.all_ascii (str_lower (title a)) -> Spec.all_ascii (generate_slug a)).
Proof.
  intros Hslug Hlow Hhy. rewrite (generate_slug_unset a Hslug).
  split; [reflexivity|]. split.
  - repeat split.
    + apply Forall_forall. intros c Hc.
      destruct (slug_of_title_chars _ _ Hc) as [-> | [Hin _]]; eauto.
    + apply slug_of_title_length.
    + apply Forall_forall. intros c Hc.
      destruct (slug_of_title_chars _ _ Hc) as [-> | (_ & ? & ?)]; auto.
    + intros s'. apply slug_of_title_head.
  - intros Hascii. apply Forall_forall. intros c Hc.
    destruct (slug_of_title_chars _ _ Hc) as [-> | [Hin _]]; [done|].
    by eapply Forall_forall in Hascii.
Qed.

Lemma upper_letter_spec c :
  Latin1.upper_letter c = true
  <-> (65 <= c <= 90 \/ (192 <= c <= 222 /\ c <> 215)).
Proof.
  unfold Latin1.upper_letter, Latin1.in_range.
  rewrite orb_true_iff, !andb_true_iff, negb_true_iff, !N.leb_le, N.eqb_neq.
  tauto.
Qed.

Lemma lower_char_idempotent x :
  Latin1.lower_char (Latin1.lower_char x) = Latin1.lower_char x.
Proof.
  unfold Latin1.lower_char at 2 3. destruct (Latin1.upper_letter x) eqn:E.
  - unfold Latin1.lower_char.
    destruct (Latin1.upper_letter (x + 32)) eqn:E'; [|done].
    apply upper_letter_spec in E, E'. lia.
  - unfold Latin1.lower_char. by rewrite E.
Qed.

(** The Latin-1 fragment lowercases character by character, and no
    character it produces is upper case. *)
Lemma latin1_lower_stable s c :
  c ∈ @str_lower Latin1.latin1 s -> @Spec.lowercase_char Latin1.latin1 c.
Proof.
  unfold Spec.lowercase_char. simpl. intros H.
  apply list_elem_of_fmap in H as [x [-> _]]. f_equal.
  apply lower_char_idempotent.
Qed.

Lemma generate_slug_from_title_witness :
  @generate_slug Latin1.latin1 Sample.hello = lit "hello-world-a-test"
  /\ @Spec.slug_as_computed Latin1.latin1 (lit "hello-world-a-test").
Proof.
  destruct (@generate_slug_from_title Latin1.latin1 Sample.hello) as (E & H & _).
  - reflexivity.
  - apply latin1_lower_stable.
  - reflexivity.
  - split; [vm_compute; reflexivity | exact H].
Defined.

(** C3 as specified fails on the title ["a_b"]: the underscore is a word
    character, so it stays in the slug, and it is punctuation. *)
Lemma generate_slug_keeps_underscore :
  ~ (forall a : Article,
       slug a = None ->
       @Spec.slug_as_specified Latin1.latin1 (@generate_slug Latin1.latin1 a)).
Proof.
  intros H. destruct (H Sample.snake eq_refl) as (_ & _ & _ & Hp).
  change (@generate_slug Latin1.latin1 Sample.snake) with [97; 95; 98] in Hp.
  inversion Hp as [|? ? _ Hp']; subst. inversion Hp' as [|? ? Hu _]; subst.
  specialize (Hu eq_refl). discriminate Hu.
Qed.

(** Runs of spaces and hyphens collapse, and the ends are trimmed. *)
Example generate_slug_runs :
  @generate_slug Latin1.latin1
    (Sample.article (lit "  --a - b-- ") Sample.url_a None)
  = lit "a-b".
Proof. reflexivity. Qed.

(** Truncation comes after trimming: a slug can end with a hyphen. *)
Example generate_slug_truncated :
  @generate_slug Latin1.latin1
    (Sample.article (repeat 97 99 ++ lit " b c") Sample.url_a None)
  = repeat 97 99 ++ lit "-".
Proof. vm_compute. reflexivity. Qed.

(** The same slug function keeps letters outside ASCII: ["Café"] gives
    ["café"]. *)
Example generate_slug_cafe :
  @generate_slug Latin1.latin1 Sample.cafe = lit "caf" ++ [233].
Proof. reflexivity. Qed.

(** C10, as amended. A slug set to a non-empty string is returned as it
    is, and the file path is the output directory joined with that string
    followed by [".md"]. *)
Theorem generate_slug_preset {U : Unicode} (a : Article) (s : pystr) (base_dir : path) :
  slug a = Some s ->
  s <> [] ->
  generate_slug a = s
  /\ get_file_path a base_dir = joinpath base_dir (s ++ lit ".md").
Proof.
  intros Hs Hne. unfold get_file_path, generate_slug. rewrite Hs.
  destruct s; [done|]. simpl. done.
Qed.

Lemma generate_slug_preset_witness :
  @generate_slug Latin1.latin1 Sample.preset = lit "My Slug!"
  /\ @get_file_path Latin1.latin1 Sample.preset Sample.articles_dir
     = [lit "articles"; lit "My Slug!.md"].
Proof.
  destruct (@generate_slug_preset Latin1.latin1 Sample.preset (lit "My Slug!")
              Sample.articles_dir eq_refl) as [E1 E2].
  - discriminate.
  - split; [exact E1 | rewrite E2; reflexivity].
Defined.

(** C10 as specified fails when the slug is set to the empty string: the
    slug is then computed from the title. *)
Lemma generate_slug_empty_preset :
  ~ (forall (a : Article) (s : pystr),
       slug a = Some s -> @generate_slug Latin1.latin1 a = s).
Proof.
  intros H. specialize (H Sample.empty_slug [] eq_refl). discriminate H.
Qed.

(** An absolute preset slug leaves the output directory. *)
Example get_file_path_rooted :
  @get_file_path Latin1.latin1 Sample.rooted Sample.articles_dir
  = [lit "/"; lit "tmp"; lit "x.md"].
Proof. reflexivity. Qed.

(** ** The text normalizer *)

Section NormalizerFacts.
Context {U : Unicode} {L : Library}.

Lemma _normalize_text_ascii text : Spec.all_ascii (Writer._normalize_text text).
Proof.
  unfold Writer._normalize_text. destruct (negb (truthy text)).
  - constructor.
  - apply ascii_replace_ascii.
Qed.

(** No key of the substitution table is a 7-bit character. *)
Lemma replacements_not_ascii :
  Forall (fun r => is_ascii (fst r) = false) Writer.replacements.
Proof. repeat constructor. Qed.

Lemma fold_replace_ascii (table : list (N * pystr)) s :
  Forall (fun r => is_ascii (fst r) = false) table ->
  Spec.all_ascii s ->
  fold_left (fun acc r => str_replace (fst r) (snd r) acc) table s = s.
Proof.
  intros Ht Hs. induction Ht as [|r table Hr _ IH]; simpl; [done|].
  rewrite str_replace_absent; [done|].
  intros Hin. eapply Forall_forall in Hs; [|exact Hin]. congruence.
Qed.

Lemma filter_all_true {A} (p : A -> bool) l :
  Forall (fun x => p x = true) l -> List.filter p l = l.
Proof. induction 1 as [|x l Hx _ IH]; simpl; [done|]. by rewrite Hx, IH. Qed.

(** The two facts about the Unicode tables the fixed point needs: a
    7-bit string is its own canonical decomposition, and no 7-bit
    character is a combining mark. *)
Hypothesis NFD_ascii : forall s, Spec.all_ascii s -> normalize_NFD s = s.
Hypothesis Mn_not_ascii : forall c, is_ascii c = true -> category_Mn c = false.

(** A 7-bit string is a fixed point of the normalizer. *)
Lemma _normalize_text_fixed s :
  Spec.all_ascii s -> Writer._normalize_text s = s.
Proof using NFD_ascii Mn_not_ascii.
  intros Hs. unfold Writer._normalize_text.
  destruct s as [|c s]; [done|]. cbn [truthy negb].
  rewrite NFD_ascii by done.
  rewrite filter_all_true.
  - rewrite fold_replace_ascii by (done || apply replacements_not_ascii).
    by apply ascii_replace_fixed.
  - eapply Forall_impl; [exact Hs|]. intros x Hx. simpl.
    by rewrite Mn_not_ascii.
Qed.

(** C4. The normalizer is idempotent. *)
Theorem _normalize_text_idempotent s :
  Writer._normalize_text (Writer._normalize_text s) = Writer._normalize_text s.
Proof using NFD_ascii Mn_not_ascii.
  apply _normalize_text_fixed, _normalize_text_ascii.
Qed.
End NormalizerFacts.

(** The two facts hold in the Latin-1 fragment. *)
Lemma latin1_decompose_ascii c : is_ascii c = true -> Latin1.decompose c = [c].
Proof.
  unfold is_ascii. intros H. apply N.ltb_lt in H.
  assert (Forall (fun n => Latin1.decompose (N.of_nat n) = [N.of_nat n]) (seq 0 128))
    as Hall by (vm_compute; repeat constructor).
  rewrite <- (N2Nat.id c). eapply Forall_forall in Hall; [exact Hall|].
  apply list_elem_of_In, in_seq. lia.
Qed.

Lemma latin1_NFD_ascii s :
  Spec.all_ascii s -> @normalize_NFD Latin1.latin1 s = s.
Proof.
  simpl. induction 1 as [|c s Hc _ IH]; simpl; [done|].
  by rewrite latin1_decompose_ascii, IH.
Qed.

Lemma latin1_Mn_not_ascii c :
  is_ascii c = true -> @category_Mn Latin1.latin1 c = false.
Proof.
  unfold is_ascii. simpl. unfold Latin1.in_range. intros H%N.ltb_lt.
  apply andb_false_iff. left. apply N.leb_gt. lia.
Qed.

(** ["Café — déjà vu…"] normalizes to ["Cafe -- deja vu..."], which
    normalizes to itself. *)
Lemma _normalize_text_idempotent_witness :
  @Writer._normalize_text Latin1.latin1 Sample.accented = lit "Cafe -- deja vu..."
  /\ @Writer._normalize_text Latin1.latin1
       (@Writer._normalize_text Latin1.latin1 Sample.accented)
     = @Writer._normalize_text Latin1.latin1 Sample.accented.
Proof.
  split.
  - vm_compute. reflexivity.
  - apply (@_normalize_text_idempotent Latin1.latin1 latin1_NFD_ascii
             latin1_Mn_not_ascii Sample.accented).
Defined.

(** ** The document writer *)

Section WriterFacts.
Context {U : Unicode} {L : Library}.
Import Writer.

(** What one call of [write_article] does. *)
Lemma write_article_run self a w :
  write_article self a w =
    if Spec.opens self (denied (fs w)) a then
      let w1 := {| fs := {| files := Spec.write_doc self (files (fs w)) a;
                            denied := denied (fs w) |};
                   console := console w;
                   trace := trace w ++ [Wrote (Spec.doc_path self a)] |} in
      match relative_to (Spec.doc_path self a) (output_dir self) with
      | Some rel =>
          (Ok (Spec.doc_path self a),
           {| fs := fs w1; console := console w ++ [Saved rel];
              trace := trace w1 |})
      | None => (Raise ValueError, w1)
      end
    else (Raise OSError, w).
Proof.
  unfold write_article, Spec.opens, Spec.doc_path, bind, mkdir, write_file.
  destruct (decide (parent (get_file_path a (output_dir self)) ∈ denied (fs w)))
    as [Hp|Hp].
  { rewrite (bool_decide_eq_false_2 _) by (intros Hn; by apply Hn). done. }
  rewrite (bool_decide_eq_true_2 _ Hp). simpl.
  destruct (decide (get_file_path a (output_dir self) ∈ denied (fs w)))
    as [Hf|Hf].
  { rewrite (bool_decide_eq_false_2 _) by (intros Hn; by apply Hn). done. }
  rewrite (bool_decide_eq_true_2 _ Hf). simpl.
  destruct (relative_to _ _); reflexivity.
Qed.

(** What the loop of [write_articles] does, from any state of its
    locals: the paths and URLs of the articles written are appended in
    input order, the articles found in the ledger are counted, one line
    is printed per article and the files created are those of the new
    articles the system accepted. *)
Lemma write_loop_run self articles : forall v w,
  write_loop self articles v w =
    (Ok {| written_files :=
             written_files v
             ++ map (Spec.doc_path self)
                  (List.filter (Spec.written self (denied (fs w))) articles);
           new_urls :=
             new_urls v
             ++ map url (List.filter (Spec.written self (denied (fs w))) articles);
           skipped_count :=
             skipped_count v
             + length (List.filter (is_article_processed self) articles) |},
     {| fs := {| files :=
                   fold_left (Spec.write_doc self)
                     (List.filter (Spec.created self (denied (fs w))) articles)
                     (files (fs w));
                 denied := denied (fs w) |};
        console := console w
                   ++ map (Spec.item_message self (denied (fs w))) articles;
        trace := trace w
                 ++ map Wrote
                      (map (Spec.doc_path self)
                         (List.filter (Spec.created self (denied (fs w)))
                            articles)) |}).
Proof.
  induction articles as [|a rest IH]; intros v w.
  - destruct v, w as [[] ? ?]. simpl. unfold ret.
    rewrite !app_nil_r, Nat.add_0_r. reflexivity.
  - cbn [write_loop List.filter map].
    destruct (is_article_processed self a) eqn:Hproc.
    + assert (Spec.written self (denied (fs w)) a = false) as ->
        by (unfold Spec.written, Spec.is_new; by rewrite Hproc).
      assert (Spec.created self (denied (fs w)) a = false) as ->
        by (unfold Spec.created, Spec.is_new; by rewrite Hproc).
      assert (Spec.item_message self (denied (fs w)) a = Skipping (title a)) as ->
        by (unfold Spec.item_message; by rewrite Hproc).
      unfold bind at 1, print at 1. rewrite IH.
      cbn [fs console trace files denied written_files new_urls skipped_count length].
      rewrite <- !app_assoc. do 3 f_equal. lia.
    + unfold bind at 1, try_except at 1, bind at 1.
      rewrite write_article_run.
      destruct (Spec.opens self (denied (fs w)) a) eqn:Hopen.
      * assert (Spec.created self (denied (fs w)) a = true) as ->
          by (unfold Spec.created, Spec.is_new; by rewrite Hproc, Hopen).
        destruct (relative_to (Spec.doc_path self a) (output_dir self))
          as [rel|] eqn:Hrel.
        -- assert (Spec.written self (denied (fs w)) a = true) as ->.
           { unfold Spec.written, Spec.is_new, Spec.returns.
             rewrite Hproc, Hopen, Hrel. cbn [negb andb].
             apply bool_decide_eq_true_2. eauto. }
           assert (Spec.item_message self (denied (fs w)) a = Saved rel) as ->
             by (unfold Spec.item_message; by rewrite Hproc, Hopen, Hrel).
           cbv zeta. unfold ret at 1. rewrite IH.
           cbn [fs console trace files denied written_files new_urls
                skipped_count map fold_left].
           rewrite <- !app_assoc. reflexivity.
        -- assert (Spec.written self (denied (fs w)) a = false) as ->.
           { unfold Spec.written, Spec.is_new, Spec.returns.
             rewrite Hproc, Hopen, Hrel. cbn [negb andb].
             apply bool_decide_eq_false_2. intros [? ?]. done. }
           assert (Spec.item_message self (denied (fs w)) a
                   = ErrorWriting (title a)) as ->
             by (unfold Spec.item_message; by rewrite Hproc, Hopen, Hrel).
           cbv zeta. unfold bind at 1, print at 1, ret at 1. rewrite IH.
           cbn [fs console trace files denied written_files new_urls
                skipped_count map fold_left].
           rewrite <- !app_assoc. reflexivity.
      * assert (Spec.created self (denied (fs w)) a = false) as ->
          by (unfold Spec.created, Spec.is_new; by rewrite Hproc, Hopen).
        assert (Spec.written self (denied (fs w)) a = false) as ->
          by (unfold Spec.written, Spec.is_new, Spec.returns;
              by rewrite Hproc, Hopen).
        assert (Spec.item_message self (denied (fs w)) a
                = ErrorWriting (title a)) as ->
          by (unfold Spec.item_message; by rewrite Hproc, Hopen).
        unfold bind at 1, print at 1, ret at 1. rewrite IH.
        cbn [fs console trace files denied written_files new_urls
             skipped_count map fold_left].
        rewrite <- !app_assoc. reflexivity.
Qed.
End WriterFacts.

(** ** Paths of documents and of the ledger *)

Section PathFacts.

Lemma str_split_from_no_sep sep t : sep ∉ t ->
  forall cur, str_split_from sep cur t = [rev cur ++ t].
Proof.
  induction t as [|c t IH]; intros Hsep cur; simpl.
  - by rewrite app_nil_r.
  - apply not_elem_of_cons in Hsep as [Hne Hsep].
    destruct (N.eqb_spec c sep); [congruence|].
    rewrite IH by done. simpl. by rewrite <- app_assoc.
Qed.

(** The last field of a split string carries the suffix that has no
    separator. *)
Lemma str_split_from_suffix sep t : sep ∉ t ->
  forall s cur, exists pre x, str_split_from sep cur (s ++ t) = pre ++ [x ++ t].
Proof.
  intros Hsep. induction s as [|c s IH]; intros cur; simpl.
  - exists [], (rev cur). by apply str_split_from_no_sep.
  - destruct (N.eqb_spec c sep).
    + destruct (IH []) as (pre & x & E). exists (rev cur :: pre), x.
      by rewrite E.
    + apply IH.
Qed.

Lemma Path_md_last s :
  exists pre x, Path (s ++ lit ".md") = pre ++ [x ++ lit ".md"].
Proof.
  assert (slash ∉ lit ".md") as Hsep.
  { intros H. apply list_elem_of_In in H. vm_compute in H.
    repeat destruct H as [H|H]; try discriminate H. done. }
  destruct (str_split_from_suffix slash _ Hsep s []) as (pre & x & E).
  assert (str_components (s ++ lit ".md")
          = List.filter
              (fun p => negb (match p with
                              | [] => true | [c] => c =? dot | _ => false
                              end)) pre
            ++ [x ++ lit ".md"]) as Hc.
  { unfold str_components, str_split. rewrite E, List.filter_app.
    f_equal. cbn [List.filter].
    destruct x as [|a [|b x]]; reflexivity. }
  unfold Path. rewrite Hc. destruct (str_root _).
  - eexists (_ :: _), x. reflexivity.
  - eexists _, x. reflexivity.
Qed.

Lemma joinpath_md_last base s :
  exists pre x, joinpath base (s ++ lit ".md") = pre ++ [x ++ lit ".md"].
Proof.
  unfold joinpath. destruct (Path_md_last s) as (pre & x & ->).
  destruct (is_absolute _).
  - by exists pre, x.
  - exists (base ++ pre), x. by rewrite app_assoc.
Qed.

(** No document is written over the ledger. *)
Lemma doc_path_not_metadata {U : Unicode} {L : Library} self a :
  Spec.constructed self ->
  Spec.doc_path self a <> Writer.metadata_file self.
Proof.
  unfold Spec.constructed, Spec.doc_path, get_file_path. intros -> E.
  destruct (joinpath_md_last (Writer.output_dir self) (generate_slug a))
    as (pre & x & E').
  rewrite E' in E.
  change (joinpath (Writer.output_dir self) (lit ".metadata.json"))
    with (Writer.output_dir self ++ [lit ".metadata.json"]) in E.
  apply app_inj_tail in E as [_ E].
  apply (f_equal (@rev N)) in E. rewrite rev_app_distr in E.
  vm_compute in E. discriminate E.
Qed.
End PathFacts.

(** ** [write_articles] *)

Section BatchFacts.
Context {U : Unicode} {L : Library}.
Import Writer.

Lemma _save_metadata_run env self urls w :
  _save_metadata env self urls w =
    if decide (metadata_file self ∈ denied (fs w)) then
      (Ok tt, {| fs := fs w; console := console w ++ [WarnSaveMetadata];
                 trace := trace w |})
    else
      (Ok tt,
       {| fs := {| files :=
                     <[metadata_file self :=
                         JsonFile
                           {| last_updated := now_isoformat env;
                              processed_urls :=
                                Some (elements (existing_urls self
                                                ∪ list_to_set urls)) |}]>
                       (files (fs w));
                   denied := denied (fs w) |};
          console := console w;
          trace := trace w ++ [Wrote (metadata_file self)] |}).
Proof.
  unfold _save_metadata, try_except, write_file.
  destruct (decide _); reflexivity.
Qed.

(** The whole of [write_articles]: the locals it ends with and the
    world it leaves, according to whether a URL was staged and whether
    the ledger file can be written. *)
Lemma write_articles_locals_run env self articles w :
  let d := denied (fs w) in
  let ws := List.filter (Spec.written self d) articles in
  let v := {| written_files := map (Spec.doc_path self) ws;
              new_urls := map url ws;
              skipped_count :=
                length (List.filter (is_article_processed self) articles) |} in
  let docs := fold_left (Spec.write_doc self)
                (List.filter (Spec.created self d) articles) (files (fs w)) in
  let lines := console w ++ map (Spec.item_message self d) articles in
  let wrote := trace w
               ++ map Wrote (map (Spec.doc_path self)
                               (List.filter (Spec.created self d) articles)) in
  let summary := Summary (length (written_files v)) (skipped_count v) in
  write_articles_locals env self articles w =
    (Ok v,
     if truthy (new_urls v) then
       if decide (metadata_file self ∈ d) then
         {| fs := {| files := docs; denied := d |};
            console := lines ++ [WarnSaveMetadata; summary];
            trace := wrote |}
       else
         {| fs := {| files :=
                       <[metadata_file self :=
                           JsonFile
                             {| last_updated := now_isoformat env;
                                processed_urls :=
                                  Some (elements
                                          (existing_urls self
                                           ∪ list_to_set (new_urls v))) |}]>
                         docs;
                     denied := d |};
            console := lines ++ [summary];
            trace := wrote ++ [Wrote (metadata_file self)] |}
     else
       {| fs := {| files := docs; denied := d |};
          console := lines ++ [summary];
          trace := wrote |}).
Proof.
  intros d ws v docs lines wrote summary.
  unfold write_articles_locals. unfold bind at 1. rewrite write_loop_run.
  cbn [written_files new_urls skipped_count app Nat.add].
  fold d ws docs lines wrote.
  destruct (truthy (map url ws)) eqn:Hstaged.
  - unfold bind at 1. rewrite _save_metadata_run.
    cbn [fs denied files console trace].
    destruct (decide (metadata_file self ∈ d)).
    + unfold bind, print, ret. cbn [fs console trace].
      subst v summary. cbn [new_urls written_files skipped_count].
      rewrite Hstaged. rewrite <- app_assoc. reflexivity.
    + unfold bind, print, ret. cbn [fs console trace].
      subst v summary. cbn [new_urls written_files skipped_count].
      rewrite Hstaged. reflexivity.
  - unfold bind, print, ret. cbn [fs console trace].
    subst v summary. cbn [new_urls written_files skipped_count].
    rewrite Hstaged. reflexivity.
Qed.

Lemma write_articles_run env self articles w :
  write_articles env self articles w =
    (Ok (map (Spec.doc_path self)
           (List.filter (Spec.written self (denied (fs w))) articles)),
     snd (write_articles_locals env self articles w)).
Proof.
  unfold write_articles. unfold bind at 1.
  rewrite write_articles_locals_run. reflexivity.
Qed.

(** After a sequence of document writes, a path that some article of the
    sequence has holds the rendering of one of them. *)
Lemma fold_write_doc_lookup self l : forall m a,
  a ∈ l ->
  exists b, b ∈ l /\ Spec.doc_path self b = Spec.doc_path self a
            /\ fold_left (Spec.write_doc self) l m !! Spec.doc_path self a
               = Some (Spec.rendering b).
Proof.
  induction l as [|x l IH] using rev_ind; intros m a Ha.
  - inversion Ha.
  - rewrite fold_left_app. cbn [fold_left]. unfold Spec.write_doc at 1.
    destruct (decide (Spec.doc_path self x = Spec.doc_path self a)) as [E|E].
    + exists x. split; [apply elem_of_app; right; by left|].
      split; [done|]. rewrite E. apply lookup_insert_eq.
    + apply elem_of_app in Ha as [Ha|Ha].
      * destruct (IH m a Ha) as (b & Hb & Hp & Hl). exists b.
        split; [apply elem_of_app; by left|]. split; [done|].
        by rewrite lookup_insert_ne.
      * apply list_elem_of_singleton in Ha. congruence.
Qed.

Lemma fold_write_doc_other self l : forall m p,
  (forall a, a ∈ l -> Spec.doc_path self a <> p) ->
  fold_left (Spec.write_doc self) l m !! p = m !! p.
Proof.
  induction l as [|x l IH]; intros m p Hp; [done|].
  cbn [fold_left]. rewrite IH.
  - unfold Spec.write_doc. apply lookup_insert_ne, Hp. by left.
  - intros a Ha. apply Hp. by right.
Qed.

Lemma elem_of_filter_bool {A} (p : A -> bool) l x :
  x ∈ List.filter p l <-> x ∈ l /\ p x = true.
Proof. rewrite !list_elem_of_In. apply filter_In. Qed.




End BatchFacts.




(** An absolute preset slug: the file is created outside the output
    directory, then printing its relative path raises, so the path is not
    returned and the URL is not staged. *)
Example write_articles_rooted_slug :
  exists w',
    Writer.write_articles (U:=Latin1.latin1) (L:=Sample.library) Sample.env_detected Sample.writer_ab
      [Sample.article (lit "Hello") Sample.url_c (Some (lit "/tmp/x"))]
      (Sample.world_of Sample.fs_ab)
    = (Ok [], w')
    /\ trace w' = [Wrote [lit "/"; lit "tmp"; lit "x.md"]]
    /\ console w' = [ErrorWriting (lit "Hello"); Summary 0 0].
Proof. eexists. vm_compute. repeat split. Qed.

(** ** The ledger *)




(** ** Duplicates inside a batch *)



(** ** The feed retriever *)

Section FetcherFacts.
Context {U : Unicode} {L : Library}.

Lemma fetch_rss_feed_run env config w :
  Fetcher.fetch_rss_feed env config w =
    (Ok match feed env (rss_url config) with
        | Some parsed =>
            omap Fetcher._parse_rss_entry
              (slice_to (max_articles config) (entries parsed))
        | None => []
        end,
     {| fs := fs w; console := console w;
        trace := trace w ++ [FeedParse (rss_url config)] |}).
Proof.
  unfold Fetcher.fetch_rss_feed, try_except, bind, emit.
  destruct (feed env (rss_url config)); reflexivity.
Qed.

Lemma length_omap_le {A B} (f : A -> option B) l :
  (length (omap f l) <= length l)%nat.
Proof.
  induction l as [|x l IH]; csimpl; [done|].
  destruct (f x); csimpl; lia.
Qed.

Lemma slice_to_nonneg {A} (n : Z) (l : list A) :
  (0 <= n)%Z -> slice_to n l = firstn (Z.to_nat n) l.
Proof. unfold slice_to. intros H. by rewrite (proj2 (Z.leb_le 0 n) H). Qed.
End FetcherFacts.

(** C7, as amended. [fetch_rss_feed] always returns. When fetching or
    parsing the feed raises it returns the empty list. Otherwise, for a
    non-negative [max_articles], it returns the articles of the entries that
    parse among the first [max_articles] entries of the feed, in feed order:
    at most [max_articles] of them. *)
Theorem fetch_rss_feed_outcome {U : Unicode} {L : Library}
    (env : Env) (config : FetchConfig) (w : world) :
  exists articles w',
    Fetcher.fetch_rss_feed env config w = (Ok articles, w')
    /\ fs w' = fs w
    /\ (feed env (rss_url config) = None -> articles = [])
    /\ (forall parsed,
          feed env (rss_url config) = Some parsed ->
          (0 <= max_articles config)%Z ->
          articles
          = omap Fetcher._parse_rss_entry
              (firstn (Z.to_nat (max_articles config)) (entries parsed))
          /\ (Z.of_nat (length articles) <= max_articles config)%Z).
Proof.
  eexists _, _. split; [apply fetch_rss_feed_run|]. cbn [fs].
  split; [done|]. split.
  - by intros ->.
  - intros parsed -> Hmax. rewrite slice_to_nonneg by done.
    split; [done|].
    pose proof (length_omap_le Fetcher._parse_rss_entry
                  (firstn (Z.to_nat (max_articles config)) (entries parsed))).
    rewrite length_take in H. lia.
Qed.

(** Three entries and [max_articles = 2]: the first two, in order. *)
Lemma fetch_rss_feed_outcome_witness :
  fst (Fetcher.fetch_rss_feed (U:=Latin1.latin1) (L:=Sample.library)
         Sample.env_detected (Sample.config_max 2) (Sample.world_of Sample.fs_ab))
  = Ok [Sample.article (lit "One") Sample.url_a None;
        Sample.article (lit "Two") Sample.url_b None].
Proof.
  destruct (fetch_rss_feed_outcome (U:=Latin1.latin1) (L:=Sample.library)
              Sample.env_detected (Sample.config_max 2)
              (Sample.world_of Sample.fs_ab))
    as (articles & w' & -> & _ & _ & Hsome).
  destruct (Hsome Sample.three_entries eq_refl) as [-> _].
  - vm_compute. discriminate.
  - vm_compute. reflexivity.
Defined.

(** A feed that cannot be parsed gives no article. *)
Example fetch_rss_feed_unparsable :
  fst (Fetcher.fetch_rss_feed (U:=Latin1.latin1) (L:=Sample.library)
         Sample.env_no_feed Sample.config_default (Sample.world_of Sample.fs_ab))
  = Ok [].
Proof. vm_compute. reflexivity. Qed.

(** C7 as specified fails for [max_articles = -1]: the slice drops the
    last entry of three, and two articles are more than [-1]. *)
Lemma fetch_rss_feed_negative_bound :
  ~ (forall (env : Env) (config : FetchConfig) (w : world),
       Spec.feed_as_specified (U:=Latin1.latin1) (L:=Sample.library) env config w).
Proof.
  intros H.
  destruct (H Sample.env_detected (Sample.config_max (-1))
              (Sample.world_of Sample.fs_ab)) as (articles & w' & Hrun & _ & Hlen).
  rewrite fetch_rss_feed_run in Hrun. injection Hrun as <- _.
  vm_compute in Hlen. by apply Hlen.
Qed.

(** ** A failed download *)



(** ** Service detection and registration *)

Section RagFacts.
Context {U : Unicode}.

Lemma after_sleeps_S n w :
  Spec.after_sleeps n
    {| fs := fs w; console := console w; trace := trace w ++ [Sleep 1] |}
  = Spec.after_sleeps (S n) w.
Proof. unfold Spec.after_sleeps. cbn. by rewrite <- app_assoc. Qed.

Lemma after_sleeps_0 w : w = Spec.after_sleeps 0 w.
Proof. destruct w. unfold Spec.after_sleeps. cbn. by rewrite app_nil_r. Qed.

(** The wait loop returns, having only slept, at most once per second
    of the window. *)
Lemma wait_for_service_returns env self app_folder n : forall k w,
  exists found self' m,
    Rag.wait_for_service env self app_folder n k w
    = (Ok (found, self'), Spec.after_sleeps m w)
    /\ (m <= n)%nat.
Proof.
  induction n as [|n IH]; intros k w; cbn [Rag.wait_for_service].
  - exists false, self, 0%nat. split; [|lia].
    unfold ret. by rewrite <- after_sleeps_0.
  - destruct (port_file (poll env app_folder k)) as [[port|]|];
      destruct (pid_file (poll env app_folder k)) as [[pid|]|];
      try (eexists _, _, 0%nat; split; [|lia];
           unfold ret; by rewrite <- after_sleeps_0).
    all: unfold bind, sleep, emit; cbn [Qnum Z.ltb Z.compare];
      destruct (IH (S k) {| fs := fs w; console := console w;
                            trace := trace w ++ [Sleep 1] |})
        as (found & self' & m & -> & Hm);
      exists found, self', (S m); rewrite after_sleeps_S; split; [done|lia].
Qed.

(** With no marker file during the window, the loop sleeps the window
    through and reports that the service was not found. *)
Lemma wait_for_service_absent env self app_folder n : forall k w,
  (forall j, (k <= j < k + n)%nat ->
             Spec.markers_absent (poll env app_folder j)) ->
  Rag.wait_for_service env self app_folder n k w
  = (Ok (false, self), Spec.after_sleeps n w).
Proof.
  induction n as [|n IH]; intros k w Habs; cbn [Rag.wait_for_service].
  - unfold ret. by rewrite <- after_sleeps_0.
  - destruct (Habs k) as [-> _]; [lia|].
    unfold bind, sleep, emit. cbn [Qnum Z.ltb Z.compare].
    rewrite IH by (intros j Hj; apply Habs; lia).
    by rewrite after_sleeps_S.
Qed.

(** [detect_rag_service] never raises, and only sleeps. *)
Lemma detect_rag_service_returns env self app_name max_wait_time w :
  exists found self' m,
    Rag.detect_rag_service env self app_name max_wait_time w
    = (Ok (found, self'), Spec.after_sleeps m w).
Proof.
  unfold Rag.detect_rag_service, try_except.
  destruct (config_exists env (Rag.config_path self)); cbn [negb].
  - unfold bind. destruct (client_data_dir env (Rag.config_path self)) as [d|].
    + unfold ret at 1.
      destruct (app_folder_exists env (Rag.app_folder_of d app_name)); cbn [negb].
      * destruct (wait_for_service_returns env self
                    (Rag.app_folder_of d app_name) (Z.to_nat max_wait_time) 0%nat w)
          as (found & self' & m & -> & _). eauto.
      * exists false, self, 0%nat. unfold ret. by rewrite <- after_sleeps_0.
    + exists false, self, 0%nat. unfold raise, ret. by rewrite <- after_sleeps_0.
  - exists false, self, 0%nat. unfold ret. by rewrite <- after_sleeps_0.
Qed.

Lemma detect_rag_service_absent env self app_name max_wait_time w :
  Spec.absent_during env (Rag.config_path self) app_name (Z.to_nat max_wait_time) ->
  exists m,
    Rag.detect_rag_service env self app_name max_wait_time w
    = (Ok (false, self), Spec.after_sleeps m w)
    /\ (m <= Z.to_nat max_wait_time)%nat.
Proof.
  intros Habs. unfold Rag.detect_rag_service, try_except.
  destruct (config_exists env (Rag.config_path self)); cbn [negb].
  - unfold bind.
    destruct (client_data_dir env (Rag.config_path self)) as [d|] eqn:Hd.
    + unfold ret at 1.
      destruct (app_folder_exists env (Rag.app_folder_of d app_name)); cbn [negb].
      * rewrite wait_for_service_absent; [eauto|].
        intros j Hj. apply (Habs d j Hd). lia.
      * exists 0%nat. unfold ret. rewrite <- after_sleeps_0. split; [done|lia].
    + exists 0%nat. unfold raise, ret. rewrite <- after_sleeps_0.
      split; [done|lia].
  - exists 0%nat. unfold ret. rewrite <- after_sleeps_0. split; [done|lia].
Qed.

Lemma extends_refl w : Spec.extends w w.
Proof. exists []. by rewrite app_nil_r. Qed.

Lemma extends_trans w1 w2 w3 :
  Spec.extends w1 w2 -> Spec.extends w2 w3 -> Spec.extends w1 w3.
Proof.
  intros [t1 H1] [t2 H2]. exists (t1 ++ t2). by rewrite H2, H1, app_assoc.
Qed.

Lemma extends_emit w c ev :
  Spec.extends w {| fs := fs w; console := c; trace := trace w ++ [ev] |}.
Proof. by exists [ev]. Qed.

Lemma extends_after_sleeps m w : Spec.extends w (Spec.after_sleeps m w).
Proof. by eexists. Qed.

Lemma is_folder_registered_returns env self folder w :
  exists r w', Rag.is_folder_registered env self folder w = (Ok r, w')
               /\ fs w' = fs w /\ Spec.extends w w'.
Proof.
  unfold Rag.is_folder_registered.
  destruct (negb (Rag.is_connected self) || negb (truthy_opt (Rag.service_url self))).
  - eexists _, _. split; [reflexivity|]. split; [done | apply extends_refl].
  - unfold try_except, bind, emit.
    destruct (watched_folders env _) as [|code [folders|]];
      unfold raise, ret;
      try (eexists _, _; split; [reflexivity|]; split;
           [done | apply extends_emit]).
    all: destruct (code =? 200)%Z;
      (eexists _, _; split; [reflexivity|]; split;
       [done | apply extends_emit]).
Qed.

(** [register_articles_folder] never raises and leaves the files alone. *)
Lemma register_articles_folder_returns env self w :
  exists r w', Rag.register_articles_folder env self w = (Ok r, w')
               /\ fs w' = fs w /\ Spec.extends w w'.
Proof.
  unfold Rag.register_articles_folder.
  destruct (negb (Rag.is_connected self) || negb (truthy_opt (Rag.service_url self))).
  - eexists _, _. split; [reflexivity|]. split; [done | apply extends_refl].
  - unfold try_except. unfold bind at 1.
    destruct (is_folder_registered_returns env self
                (Rag.absolute env (output_dir (Rag.config self))) w)
      as (r & w' & -> & Hfs & Hext).
    destruct r.
    + unfold ret. by eexists _, _.
    + unfold bind, emit.
      assert (Spec.extends w
                {| fs := fs w'; console := console w';
                   trace := trace w' ++
                     [HttpPost (default [] (Rag.service_url self)
                                ++ lit "/api/add-folder")
                        (path_str (Rag.absolute env
                                     (output_dir (Rag.config self))))] |})
        as Hext' by (eapply extends_trans; [exact Hext | apply extends_emit]).
      destruct (add_folder env _ _) as [|code body]; unfold raise, ret.
      * by eexists _, _.
      * destruct (code =? 200)%Z; by eexists _, _.
Qed.

(** [setup_rag_connection] never raises; it returns what the detection
    returned, and when that is [False] it has only slept. *)
Lemma setup_rag_connection_returns env self w :
  exists found self' w',
    Rag.setup_rag_connection env self w = (Ok (found, self'), w')
    /\ fs w' = fs w
    /\ Spec.extends w w'
    /\ (found = false -> exists m, w' = Spec.after_sleeps m w).
Proof.
  unfold Rag.setup_rag_connection. unfold bind at 1.
  destruct (detect_rag_service_returns env (Rag.detector self)
              (rag_app_name (Rag.config self)) 30 w)
    as (found & det & m & ->).
  destruct found; cbn [fst snd].
  - unfold bind.
    match goal with
    | |- context [Rag.register_articles_folder env ?s ?w0] =>
        destruct (register_articles_folder_returns env s w0)
          as (r & w' & -> & Hfs & Hext)
    end.
    unfold ret. eexists _, _, _. split; [reflexivity|]. split; [done|].
    split; [|discriminate].
    eapply extends_trans; [apply extends_after_sleeps | exact Hext].
  - unfold ret. eexists _, _, _. split; [reflexivity|]. split; [done|].
    split; [apply extends_after_sleeps | eauto].
Qed.
End RagFacts.

(** C8. When neither marker file appears during the wait window,
    [detect_rag_service] returns [False] without raising, having done
    nothing but sleep. [setup_rag_connection], whose window is 30 seconds,
    then returns [False] too: it sends no request, so no folder is
    registered, and it leaves [is_connected] and [folder_registered] as
    they were. *)
Theorem undetected_service_not_registered {U : Unicode}
    (env : Env) (self : Rag.RAGIntegration) (max_wait_time : Z) (w : world) :
  Spec.absent_during env (Rag.config_path (Rag.detector self))
    (rag_app_name (Rag.config self)) (Z.to_nat max_wait_time) ->
  Spec.absent_during env (Rag.config_path (Rag.detector self))
    (rag_app_name (Rag.config self)) 30 ->
  (exists m,
     Rag.detect_rag_service env (Rag.detector self)
       (rag_app_name (Rag.config self)) max_wait_time w
     = (Ok (false, Rag.detector self), Spec.after_sleeps m w)
     /\ (m <= Z.to_nat max_wait_time)%nat)
  /\ (exists m,
        Rag.setup_rag_connection env self w
        = (Ok (false, self), Spec.after_sleeps m w)
        /\ Forall (fun ev => Spec.is_sleep ev = true)
             (replicate m (Sleep 1))
        /\ (m <= 30)%nat).
Proof.
  intros Hwin H30. split.
  - by apply detect_rag_service_absent.
  - unfold Rag.setup_rag_connection, bind.
    destruct (detect_rag_service_absent env (Rag.detector self)
                (rag_app_name (Rag.config self)) 30 w H30) as (m & -> & Hm).
    cbn [fst snd]. unfold ret. exists m. destruct self.
    split; [reflexivity|]. split; [|exact Hm].
    apply Forall_forall. intros ev Hev.
    apply elem_of_replicate in Hev as [-> _]. reflexivity.
Qed.

(** A fresh integration and no marker file: the setup only sleeps, sends
    no request, and the integration is as it was, with nothing registered. *)
Lemma undetected_service_not_registered_witness :
  Rag.folder_registered Sample.integration = false
  /\ exists m,
       Rag.setup_rag_connection (U:=Latin1.latin1) Sample.env_undetected
         Sample.integration (Sample.world_of Sample.fs_ab)
       = (Ok (false, Sample.integration),
          Spec.after_sleeps m (Sample.world_of Sample.fs_ab))
       /\ (m <= 30)%nat.
Proof.
  split; [reflexivity|].
  destruct (undetected_service_not_registered (U:=Latin1.latin1)
              Sample.env_undetected Sample.integration 30
              (Sample.world_of Sample.fs_ab))
    as (_ & m & Hrun & _ & Hm).
  - intros d k _ _. split; reflexivity.
  - intros d k _ _. split; reflexivity.
  - exists m. split; [exact Hrun | exact Hm].
Defined.

(** The run of the same setup: thirty sleeps. *)
Example setup_rag_connection_undetected :
  Rag.setup_rag_connection (U:=Latin1.latin1) Sample.env_undetected
    Sample.integration (Sample.world_of Sample.fs_ab)
  = (Ok (false, Sample.integration),
     {| fs := Sample.fs_ab; console := []; trace := replicate 30 (Sleep 1) |}).
Proof. vm_compute. reflexivity. Qed.

(** With the marker files there from the third poll on, the service is
    found after two sleeps and the folder is registered. *)
Example setup_rag_connection_detected :
  exists self' w',
    Rag.setup_rag_connection (U:=Latin1.latin1) Sample.env_detected
      (Rag.integration_init (home Sample.env_detected) Sample.config_default)
      (Sample.world_of Sample.fs_ab)
    = (Ok (true, self'), w')
    /\ Rag.folder_registered self' = true
    /\ trace w'
       = [Sleep 1; Sleep 1;
          HttpGet (lit "http://localhost:8080/api/watched-folders");
          HttpPost (lit "http://localhost:8080/api/add-folder")
            (lit "/home/user/articles")].
Proof. eexists _, _. vm_compute. repeat split. Qed.

(** ** The command *)

Section CliFacts.
Context {U : Unicode} {L : Library}.

(** The constructor of the writer raises when the output directory
    cannot be created; otherwise it loads the ledger, and touches neither
    the files nor the network. *)
Lemma init_run out w :
  exists r warn,
    Writer.init out w
    = (r, {| fs := fs w; console := console w ++ warn; trace := trace w |})
    /\ (forall writer, r = Ok writer ->
          Spec.constructed writer
          /\ Writer.output_dir writer = out
          /\ Writer.existing_urls writer
             = Spec.persisted_urls (fs w) (Writer.metadata_file writer)).
Proof.
  unfold Writer.init. unfold bind at 1, mkdir.
  destruct (decide (out ∈ denied (fs w))).
  { exists (Raise OSError), []. rewrite app_nil_r. by destruct w. }
  unfold bind, Writer._load_existing_urls, bind, exists_file, try_except,
    read_file.
  unfold Spec.persisted_urls, Spec.constructed.
  match goal with
  | |- context [bool_decide (is_Some ?o)] => destruct o as [[t|j]|] eqn:Hf
  end.
  - rewrite bool_decide_eq_true_2 by eauto. cbv beta. rewrite Hf.
    unfold raise, print, ret. cbn [fs console trace].
    eexists _, [WarnLoadMetadata]. split; [reflexivity|].
    intros writer [= <-].
    cbn [Writer.metadata_file Writer.output_dir Writer.existing_urls].
    by rewrite Hf.
  - rewrite bool_decide_eq_true_2 by eauto. cbv beta. rewrite Hf.
    unfold ret. eexists _, []. rewrite app_nil_r.
    split; [by destruct w|].
    intros writer [= <-].
    cbn [Writer.metadata_file Writer.output_dir Writer.existing_urls].
    by rewrite Hf.
  - rewrite bool_decide_eq_false_2 by (intros [? ?]; done).
    unfold ret. eexists _, []. rewrite app_nil_r.
    split; [by destruct w|].
    intros writer [= <-].
    cbn [Writer.metadata_file Writer.output_dir Writer.existing_urls].
    by rewrite Hf.
Qed.

Lemma sleep_extends q w : Spec.extends w (snd (sleep q w)).
Proof.
  unfold sleep. destruct (Qnum q <? 0)%Z; cbn [snd].
  - apply extends_refl.
  - apply extends_emit.
Qed.

Lemma fetch_article_content_extends env config a w :
  Spec.extends w (snd (Fetcher.fetch_article_content env config a w)).
Proof.
  unfold Fetcher.fetch_article_content.
  destruct (fetch_full_content config); cbn [negb].
  - unfold try_except, bind, emit.
    destruct (fetch_page env (url a)); cbn [snd]; apply extends_emit.
  - apply extends_refl.
Qed.

Lemma fetch_loop_extends env config articles : forall w,
  Spec.extends w (snd (Fetcher.fetch_loop env config articles w)).
Proof.
  induction articles as [|a rest IH]; intros w; cbn [Fetcher.fetch_loop].
  - apply extends_refl.
  - unfold bind at 1.
    pose proof (fetch_article_content_extends env config a w) as H1.
    destruct (Fetcher.fetch_article_content env config a w) as [[a'|e] w1];
      cbn [snd] in *; [|done].
    unfold bind at 1.
    set (pause := if truthy rest then sleep (rate_limit_delay config)
                  else ret tt).
    assert (Spec.extends w1 (snd (pause w1))) as H2.
    { subst pause.
      destruct (truthy rest); [apply sleep_extends | apply extends_refl]. }
    destruct (pause w1) as [[[]|e] w2];
      cbn [snd] in *; [|by eapply extends_trans].
    unfold bind. specialize (IH w2).
    destruct (Fetcher.fetch_loop env config rest w2) as [[rest'|e] w3];
      cbn [snd] in *; eauto using extends_trans.
Qed.

Lemma fetch_articles_extends env config w :
  Spec.extends w (snd (Fetcher.fetch_articles env config w)).
Proof.
  unfold Fetcher.fetch_articles. unfold bind. rewrite fetch_rss_feed_run.
  match goal with
  | |- context [negb (truthy ?l)] => destruct (negb (truthy l))
  end.
  - apply extends_emit.
  - eapply extends_trans; [|apply fetch_loop_extends]. apply extends_emit.
Qed.

Lemma write_articles_extends env self articles w :
  Spec.extends w (snd (Writer.write_articles env self articles w)).
Proof.
  rewrite write_articles_run. cbn [snd]. rewrite write_articles_locals_run.
  cbn [snd]. unfold Spec.extends.
  destruct (truthy _); [destruct (decide _)|]; cbn [trace];
    rewrite <- ?app_assoc; by eexists.
Qed.

(** What [main] does after a successful detection adds to the events. *)
Lemma fetch_and_write_extends env config writer w :
  Spec.extends w
    (snd ((bind (Fetcher.fetch_articles env config)
             (fun articles =>
                if negb (truthy articles) then ret tt
                else bind (Writer.write_articles env writer articles)
                       (fun _ => ret tt))) w)).
Proof.
  unfold bind at 1.
  pose proof (fetch_articles_extends env config w) as H1.
  destruct (Fetcher.fetch_articles env config w) as [[articles|e] w1];
    cbn [snd] in *; [|done].
  destruct (negb (truthy articles)); [done|].
  unfold bind.
  pose proof (write_articles_extends env writer articles w1) as H2.
  destruct (Writer.write_articles env writer articles w1) as [[?|?] w2];
    cbn [snd] in *; eauto using extends_trans.
Qed.

(** The command, step by step. *)
Lemma main_run env o w :
  Cli.main env o w =
    match Writer.init (Cli.opt_output_dir o) w with
    | (Raise _, w1) => (Cli.Aborted, w1)
    | (Ok writer, w1) =>
        match Rag.setup_rag_connection env
                (Rag.integration_init (home env) (Cli.config_of o)) w1 with
        | (Raise _, w2) => (Cli.Aborted, w2)
        | (Ok (false, _), w2) => (Cli.Returned, w2)
        | (Ok (true, _), w2) =>
            match bind (Fetcher.fetch_articles env (Cli.config_of o))
                    (fun articles =>
                       if negb (truthy articles) then ret tt
                       else bind (Writer.write_articles env writer articles)
                              (fun _ => ret tt)) w2 with
            | (Ok _, w3) => (Cli.Returned, w3)
            | (Raise _, w3) => (Cli.Aborted, w3)
            end
        end
    end.
Proof.
  unfold Cli.main, Cli.run. unfold bind at 1.
  change (output_dir (Cli.config_of o)) with (Cli.opt_output_dir o).
  destruct (Writer.init (Cli.opt_output_dir o) w) as [[writer|e] w1]; [|done].
  unfold bind at 1.
  destruct (Rag.setup_rag_connection _ _ w1) as [[[[] rag]|e] w2]; done.
Qed.
End CliFacts.

(** C6. When the call of [setup_rag_connection] made by the command
    returns [False], the command returns without error, and between its
    start and its end it has only slept: it fetched no feed, downloaded no
    page and wrote no file. In any run that fetches, downloads or writes,
    that call returned [True]. *)
Theorem fetch_only_when_detected {U : Unicode} {L : Library}
    (env : Env) (o : Cli.options) (w : world) :
  exists tr,
    trace (snd (Cli.main env o w)) = trace w ++ tr
    /\ (forall writer w1 rag w2,
          Writer.init (Cli.opt_output_dir o) w = (Ok writer, w1) ->
          Rag.setup_rag_connection env
            (Rag.integration_init (home env) (Cli.config_of o)) w1
          = (Ok (false, rag), w2) ->
          Cli.main env o w = (Cli.Returned, w2)
          /\ fs w2 = fs w
          /\ Forall (fun ev => Spec.is_sleep ev = true) tr)
    /\ ((exists ev, ev ∈ tr /\ Spec.is_sleep ev = false)
        \/ fs (snd (Cli.main env o w)) <> fs w ->
        exists writer w1 rag w2,
          Writer.init (Cli.opt_output_dir o) w = (Ok writer, w1)
          /\ Rag.setup_rag_connection env
               (Rag.integration_init (home env) (Cli.config_of o)) w1
             = (Ok (true, rag), w2)).
Proof.
  rewrite main_run.
  destruct (init_run (Cli.opt_output_dir o) w) as (r & warn & Hinit & _).
  rewrite Hinit. destruct r as [writer|e].
  - destruct (setup_rag_connection_returns env
                (Rag.integration_init (home env) (Cli.config_of o))
                {| fs := fs w; console := console w ++ warn; trace := trace w |})
      as (found & rag & w2 & Hsetup & Hfs & Hext & Hsleeps).
    rewrite Hsetup. destruct found.
    + pose proof (fetch_and_write_extends env (Cli.config_of o) writer w2) as Hrest.
      destruct (bind _ _ w2) as [[[]|e] w3]; cbn [snd] in *.
      all: destruct (extends_trans _ _ _ Hext Hrest) as [tr Htr];
        cbn [trace] in Htr; exists tr; split; [done|]; split;
        [intros ? ? ? ? [= <- <-] Hfalse; rewrite Hsetup in Hfalse;
         discriminate Hfalse
        | intros _; by eexists _, _, _, _].
    + destruct (Hsleeps eq_refl) as [m ->]. cbn [snd].
      exists (replicate m (Sleep 1)). split; [done|]. split.
      * intros ? ? ? ? [= <- <-] Hfalse. rewrite Hsetup in Hfalse.
        injection Hfalse as <- <-. split; [done|]. split; [done|].
        apply Forall_forall. intros ev Hev.
        apply elem_of_replicate in Hev as [-> _]. reflexivity.
      * intros [(ev & Hev & Hns) | Hne].
        -- apply elem_of_replicate in Hev as [-> _]. discriminate Hns.
        -- by destruct Hne.
  - cbn [snd]. exists []. rewrite app_nil_r. split; [done|]. split.
    + intros ? ? ? ? [=].
    + intros [(ev & Hev & _) | Hne]; [inversion Hev | by destruct Hne].
Qed.

(** No marker file ever appears: the command returns after thirty
    sleeps, and the files are those it found. *)
Lemma fetch_only_when_detected_witness :
  Cli.main (U:=Latin1.latin1) (L:=Sample.library) Sample.env_undetected
    Sample.options_default (Sample.world_of Sample.fs_ab)
  = (Cli.Returned,
     {| fs := Sample.fs_ab; console := []; trace := replicate 30 (Sleep 1) |}).
Proof.
  destruct (fetch_only_when_detected (U:=Latin1.latin1) (L:=Sample.library)
              Sample.env_undetected Sample.options_default
              (Sample.world_of Sample.fs_ab)) as (tr & _ & Hfalse & _).
  destruct (Hfalse Sample.writer_ab (Sample.world_of Sample.fs_ab)
              (Rag.integration_init (home Sample.env_undetected)
                 Sample.config_default)
              {| fs := Sample.fs_ab; console := [];
                 trace := replicate 30 (Sleep 1) |})
    as (Hmain & _ & _).
  - vm_compute. reflexivity.
  - vm_compute. reflexivity.
  - exact Hmain.
Defined.

(** The service is detected, the feed has three entries and the ledger
    holds the URLs of the first two: the command registers the folder,
    parses the feed, tries the three pages, and writes the third article
    and the ledger. *)
Example main_detected :
  exists w',
    Cli.main (U:=Latin1.latin1) (L:=Sample.library) Sample.env_detected
      Sample.options_default (Sample.world_of Sample.fs_ab)
    = (Cli.Returned, w')
    /\ console w'
       = [Skipping (lit "One"); Skipping (lit "Two");
          Saved [lit "three.md"]; Summary 1 2]
    /\ List.filter (fun ev => negb (Spec.is_sleep ev)) (trace w')
       = [HttpGet (lit "http://localhost:8080/api/watched-folders");
          HttpPost (lit "http://localhost:8080/api/add-folder")
            (lit "/home/user/articles");
          FeedParse (lit "https://rss.tempo.co/");
          HttpGet Sample.url_a; HttpGet Sample.url_b; HttpGet Sample.url_c;
          Wrote [lit "articles"; lit "three.md"];
          Wrote [lit "articles"; lit ".metadata.json"]].
Proof. eexists. vm_compute. repeat split. Qed.

(** * Further properties *)

(** ** Titles, header escaping and content cleaning *)

Lemma elem_of_str_replace old new s c :
  c ∈ str_replace old new s -> c ∈ new \/ (c ∈ s /\ c <> old).
Proof.
  unfold str_replace. induction s as [|x s IH]; simpl.
  - intros H. inversion H.
  - rewrite elem_of_app. intros [H | H].
    + destruct (N.eqb_spec x old) as [->|Hne]; [by left|].
      apply list_elem_of_singleton in H as ->. right. split; [by left | done].
    + destruct (IH H) as [? | [? ?]]; [by left | right].
      split; [by right | done].
Qed.

Lemma clean_title_chars {U : Unicode} (v : pystr) :
  (newline ∉ clean_title v) /\ (carriage_return ∉ clean_title v).
Proof.
  unfold clean_title. split; intros H.
  - apply elem_of_str_replace in H as [H | [H _]].
    + apply list_elem_of_In in H. vm_compute in H.
      destruct H as [E|[]]. discriminate E.
    + apply elem_of_str_replace in H as [H | [_ H]]; [|done].
      apply list_elem_of_In in H. vm_compute in H.
      destruct H as [E|[]]. discriminate E.
  - apply elem_of_str_replace in H as [H | [_ H]]; [|done].
    apply list_elem_of_In in H. vm_compute in H.
      destruct H as [E|[]]. discriminate E.
Qed.

(** X1. A title that passed the validator of [Article] is one line: it
    holds no line feed and no carriage return. *)
Theorem clean_title_one_line {U : Unicode} (v : pystr) :
  Props.one_line (clean_title v).
Proof. exact (clean_title_chars v). Qed.

Lemma _escape_yaml_chars text :
  Writer._escape_yaml text = flat_map Props.escape_char text.
Proof.
  unfold Writer._escape_yaml. destruct text as [|c0 text0]; [done|].
  cbn [truthy negb]. generalize (c0 :: text0). clear. intros text.
  unfold str_replace. induction text as [|c text IH]; [done|].
  cbn [flat_map]. rewrite !flat_map_app, IH. f_equal.
  unfold Props.escape_char.
  destruct (N.eqb_spec c 34) as [->|H34]; [reflexivity|].
  cbn [flat_map app].
  destruct (N.eqb_spec c newline) as [->|Hnl]; [reflexivity|].
  cbn [flat_map app].
  destruct (N.eqb_spec c carriage_return) as [->|Hcr]; reflexivity.
Qed.

Lemma quotes_escaped_flat_map text : forall b,
  Props.quotes_escaped_from b (flat_map Props.escape_char text) = true.
Proof.
  induction text as [|c text IH]; intros b; [done|].
  cbn [flat_map]. unfold Props.escape_char at 1.
  destruct (N.eqb_spec c 34) as [->|H34].
  - cbn. apply IH.
  - destruct (N.eqb_spec c newline) as [->|Hnl]; [cbn; apply IH|].
    destruct (N.eqb_spec c carriage_return) as [->|Hcr]; [cbn; apply IH|].
    cbn [app Props.quotes_escaped_from].
    destruct (N.eqb_spec c 34); [done|]. cbn [andb]. apply IH.
Qed.

(** X2. For every text, what [_escape_yaml] returns is one line, and each
    of its double quotes comes right after a backslash; a text without
    double quote, line feed and carriage return is returned as it is. *)
Theorem _escape_yaml_header_safe (text : pystr) :
  Props.one_line (Writer._escape_yaml text)
  /\ Props.quotes_escaped (Writer._escape_yaml text) = true
  /\ ((34 ∉ text) -> Props.one_line text -> Writer._escape_yaml text = text).
Proof.
  rewrite _escape_yaml_chars. split; [|split].
  - assert (forall c, c ∈ flat_map Props.escape_char text ->
                      c <> newline /\ c <> carriage_return) as H.
    { intros c Hc. apply list_elem_of_In, in_flat_map in Hc as (x & _ & Hc).
      unfold Props.escape_char in Hc.
      destruct (N.eqb_spec x 34);
        [|destruct (N.eqb_spec x newline);
          [|destruct (N.eqb_spec x carriage_return)]];
        simpl in Hc; intuition (subst; done). }
    split; intros Hin; destruct (H _ Hin); done.
  - apply quotes_escaped_flat_map.
  - intros Hq [Hnl Hcr]. induction text as [|c text IH]; [done|].
    apply not_elem_of_cons in Hq as [? ?].
    apply not_elem_of_cons in Hnl as [? ?].
    apply not_elem_of_cons in Hcr as [? ?].
    cbn [flat_map]. rewrite IH by done. unfold Props.escape_char.
    destruct (N.eqb_spec c 34); [congruence|].
    destruct (N.eqb_spec c newline); [congruence|].
    destruct (N.eqb_spec c carriage_return); [congruence|]. done.
Qed.

Lemma _escape_yaml_header_safe_witness :
  Writer._escape_yaml (lit "plain text") = lit "plain text"
  /\ Writer._escape_yaml Sample2.quoted_title
     = lit "He said \" ++ [34] ++ lit "hi\" ++ [34] ++ lit " twice".
Proof.
  split; [|vm_compute; reflexivity].
  apply (_escape_yaml_header_safe (lit "plain text")).
  - apply (bool_decide_eq_false_1 (34 ∈ lit "plain text")). vm_compute. done.
  - split.
    + apply (bool_decide_eq_false_1 (newline ∈ lit "plain text")).
      vm_compute. done.
    + apply (bool_decide_eq_false_1 (carriage_return ∈ lit "plain text")).
      vm_compute. done.
Defined.

Section CleanContent.
Context {U : Unicode}.

Lemma str_split_from_fields sep s : forall cur,
  sep ∉ cur -> Forall (fun f => sep ∉ f) (str_split_from sep cur s).
Proof.
  induction s as [|c s IH]; intros cur Hcur; simpl.
  - constructor; [|constructor]. intros H. apply Hcur.
    by apply list_elem_of_In, in_rev, list_elem_of_In in H.
  - destruct (N.eqb_spec c sep) as [->|Hne].
    + constructor.
      * intros H. apply Hcur.
        by apply list_elem_of_In, in_rev, list_elem_of_In in H.
      * apply IH. intros H. inversion H.
    + apply IH. rewrite not_elem_of_cons. done.
Qed.

Lemma strip_by_last p s c s' : strip_by p s = s' ++ [c] -> p c = false.
Proof.
  unfold strip_by, rstrip_by. intros H.
  apply (f_equal (@rev N)) in H. rewrite rev_involutive, rev_app_distr in H.
  simpl in H. by apply lstrip_by_head in H.
Qed.

Lemma str_strip_stripped s : Props.stripped (str_strip s).
Proof.
  unfold Props.stripped, str_strip. split; intros c s' H.
  - by apply strip_by_head in H.
  - by apply strip_by_last in H.
Qed.

(** X3. [_clean_content] returns paragraphs joined by one empty line:
    none of them is empty, none holds a line feed, and none begins or
    ends with white space. *)
Theorem _clean_content_paragraphs (content : pystr) :
  exists paragraphs,
    Writer._clean_content content = str_join [newline; newline] paragraphs
    /\ Forall (fun p => p <> [] /\ (newline ∉ p) /\ Props.stripped p) paragraphs.
Proof.
  unfold Writer._clean_content. destruct content as [|c0 content0].
  - exists []. split; [done | constructor].
  - cbn [truthy negb]. eexists. split; [reflexivity|].
    apply Forall_forall. intros p Hp.
    apply list_elem_of_In, filter_In in Hp as [Hp Hne].
    apply in_map_iff in Hp as (line & <- & Hline).
    split; [by destruct (str_strip line)|]. split.
    + intros Hnl. apply elem_of_strip_by in Hnl.
      assert (Forall (fun f => newline ∉ f) (str_split newline (c0 :: content0)))
        as Hf by (apply str_split_from_fields; intros Hx; inversion Hx).
      rewrite Forall_forall in Hf.
      apply (Hf line); [by apply list_elem_of_In | done].
    + apply str_strip_stripped.
Qed.
End CleanContent.

Example _clean_content_sample :
  @Writer._clean_content Latin1.latin1
    (lit "  first  " ++ [10; 10; 10] ++ lit " second" ++ [10] ++ lit "   ")
  = lit "first" ++ [10; 10] ++ lit "second".
Proof. vm_compute. reflexivity. Qed.

(** ** Where documents go *)

Section DocumentPaths.
Context {U : Unicode} {L : Library}.

Lemma strip_prefix_app (base q : path) : strip_prefix base (base ++ q) = Some q.
Proof.
  induction base as [|x base IH]; simpl; [done|].
  destruct (decide (x = x)); [exact IH | done].
Qed.

Lemma parent_snoc (base : path) (x : pystr) :
  is_root x = false -> parent (base ++ [x]) = base.
Proof.
  intros Hx. destruct base as [|b base]; cbn [app parent].
  - by rewrite Hx.
  - destruct (base ++ [x]) as [|y r] eqn:E; [by destruct base|].
    rewrite <- E. apply (removelast_last (b :: base) x).
Qed.

Lemma is_root_no_slash (s : pystr) : slash ∉ s -> is_root (s ++ lit ".md") = false.
Proof.
  intros Hs. unfold is_root. destruct s as [|x s]; [reflexivity|].
  apply not_elem_of_cons in Hs as [Hx _].
  assert ((x =? slash) = false) as Ex by (apply N.eqb_neq; congruence).
  destruct s as [|y [|z s]]; cbn; by rewrite Ex.
Qed.

(** A file name without slash is a path of one part. *)
Lemma Path_md_plain s :
  slash ∉ s -> Path (s ++ lit ".md") = [s ++ lit ".md"].
Proof.
  intros Hs.
  assert (slash ∉ s ++ lit ".md") as Hsep.
  { rewrite elem_of_app. intros [H|H]; [done|].
    apply list_elem_of_In in H. vm_compute in H.
    repeat destruct H as [H|H]; try discriminate H. done. }
  assert (str_root (s ++ lit ".md") = None) as Hroot.
  { destruct s as [|a s]; [reflexivity|].
    apply not_elem_of_cons in Hs as [Ha _].
    assert ((a =? slash) = false) as E by (apply N.eqb_neq; congruence).
    destruct s as [|b [|c s]]; cbn; by rewrite E. }
  unfold Path, str_components, str_split. rewrite Hroot.
  rewrite (str_split_from_no_sep slash _ Hsep []). cbn [rev app List.filter].
  destruct s as [|a [|b s]]; reflexivity.
Qed.

Lemma no_slash_in_title_slug a :
  truthy_opt (slug a) = false ->
  isalnum slash = false ->
  slash ∉ generate_slug a.
Proof.
  intros Hslug Hal Hin. rewrite (generate_slug_unset a Hslug) in Hin.
  apply slug_of_title_chars in Hin as [E | (_ & Hw & _)]; [discriminate E|].
  unfold re_word in Hw. rewrite Hal in Hw. discriminate Hw.
Qed.

(** X4. An article without preset slug is written right inside the output
    directory, in the file named after its slug: no title can move the
    file elsewhere, and [write_article] can fail only because the system
    refuses the write. The hypothesis is a fact of the Unicode tables: the
    slash is not alphanumeric. *)
Theorem title_slug_stays_inside (self : Writer.MarkdownWriter) (a : Article) :
  truthy_opt (slug a) = false ->
  isalnum slash = false ->
  Spec.doc_path self a
  = Writer.output_dir self ++ [generate_slug a ++ lit ".md"]
  /\ relative_to (Spec.doc_path self a) (Writer.output_dir self)
     = Some [generate_slug a ++ lit ".md"]
  /\ parent (Spec.doc_path self a) = Writer.output_dir self
  /\ forall d, Spec.returns self d a = Spec.opens self d a.
Proof.
  intros Hslug Hal.
  pose proof (no_slash_in_title_slug a Hslug Hal) as Hs.
  assert (Spec.doc_path self a
          = Writer.output_dir self ++ [generate_slug a ++ lit ".md"]) as Hp.
  { unfold Spec.doc_path, get_file_path, joinpath.
    rewrite (Path_md_plain _ Hs). cbn [is_absolute].
    by rewrite (is_root_no_slash _ Hs). }
  assert (relative_to (Spec.doc_path self a) (Writer.output_dir self)
          = Some [generate_slug a ++ lit ".md"]) as Hrel
    by (rewrite Hp; apply strip_prefix_app).
  split; [done|]. split; [done|]. split.
  - rewrite Hp. apply parent_snoc, is_root_no_slash, Hs.
  - intros d. unfold Spec.returns. rewrite Hrel.
    rewrite (bool_decide_eq_true_2 _) by eauto. apply andb_true_r.
Qed.
End DocumentPaths.

Lemma title_slug_stays_inside_witness :
  Spec.doc_path (U:=Latin1.latin1) Sample.writer_ab Sample.hello
  = [lit "articles"; lit "hello-world-a-test.md"]
  /\ parent (Spec.doc_path (U:=Latin1.latin1) Sample.writer_ab Sample.hello)
     = [lit "articles"].
Proof.
  destruct (title_slug_stays_inside (U:=Latin1.latin1) Sample.writer_ab
              Sample.hello eq_refl eq_refl) as (Hp & _ & Hparent & _).
  split; [rewrite Hp | rewrite Hparent]; reflexivity.
Defined.

(** ** What a batch leaves on disk *)

Section BatchFiles.
Context {U : Unicode} {L : Library}.
Import Writer.

(** The files and the refusals of the system after [write_articles]. *)
Lemma write_articles_files env self articles w :
  denied (fs (snd (write_articles_locals env self articles w))) = denied (fs w)
  /\ forall p, p <> metadata_file self ->
       files (fs (snd (write_articles_locals env self articles w))) !! p
       = fold_left (Spec.write_doc self)
           (List.filter (Spec.created self (denied (fs w))) articles)
           (files (fs w)) !! p.
Proof.
  rewrite write_articles_locals_run. cbn [snd].
  destruct (truthy _); [destruct (decide _)|]; cbn [fs files denied];
    (split; [done|]); intros p Hp; try done.
  by rewrite lookup_insert_ne.
Qed.

(** X5. [write_articles] changes no file but the ledger and the documents
    of the articles of the batch that are not in the ledger: every other
    path holds what it held. *)
Theorem write_articles_frame env self (articles : list Article) w (p : path) :
  p <> metadata_file self ->
  (forall a, a ∈ articles -> Spec.is_new self a = true ->
             Spec.doc_path self a <> p) ->
  files (fs (snd (write_articles env self articles w))) !! p
  = files (fs w) !! p.
Proof.
  intros Hmeta Hdocs. rewrite write_articles_run. cbn [snd].
  destruct (write_articles_files env self articles w) as [_ ->]; [|done].
  apply fold_write_doc_other. intros a Ha.
  apply elem_of_filter_bool in Ha as [Ha Hc].
  apply Hdocs; [done|]. unfold Spec.created in Hc.
  by apply andb_true_iff in Hc as [? _].
Qed.


(** X7. Every document a batch creates is 7-bit text. *)
Theorem written_documents_ascii env self (articles : list Article) w (a : Article) :
  Spec.constructed self ->
  a ∈ articles ->
  Spec.created self (denied (fs w)) a = true ->
  exists t,
    files (fs (snd (write_articles env self articles w))) !! Spec.doc_path self a
    = Some (TextFile t)
    /\ Spec.all_ascii t.
Proof.
  intros Hself Ha Hc. rewrite write_articles_run. cbn [snd].
  destruct (write_articles_files env self articles w) as [_ ->];
    [|by apply doc_path_not_metadata].
  destruct (fold_write_doc_lookup self
              (List.filter (Spec.created self (denied (fs w))) articles)
              (files (fs w)) a) as (b & _ & _ & ->).
  { by apply elem_of_filter_bool. }
  eexists. split; [reflexivity|]. apply ascii_replace_ascii.
Qed.
End BatchFiles.


Lemma write_articles_frame_witness :
  files (fs (snd (Writer.write_articles (U:=Latin1.latin1) (L:=Sample.library)
                    Sample.env_detected Sample.writer_ab [Sample.hello]
                    (Sample.world_of Sample.fs_ab))))
    !! [lit "articles"; lit "other.md"]
  = None.
Proof.
  rewrite (write_articles_frame (U:=Latin1.latin1) (L:=Sample.library)).
  - vm_compute. reflexivity.
  - vm_compute. discriminate.
  - intros a Ha _. apply list_elem_of_singleton in Ha as ->.
    vm_compute. discriminate.
Defined.

Lemma written_documents_ascii_witness :
  exists t,
    files (fs (snd (Writer.write_articles (U:=Latin1.latin1) (L:=Sample.library)
                      Sample.env_detected Sample.writer_ab [Sample.cafe; Sample.hello]
                      (Sample.world_of Sample.fs_ab))))
      !! [lit "articles"; lit "hello-world-a-test.md"]
    = Some (TextFile t)
    /\ Spec.all_ascii t.
Proof.
  apply (written_documents_ascii (U:=Latin1.latin1) (L:=Sample.library)
           Sample.env_detected Sample.writer_ab [Sample.cafe; Sample.hello]
           (Sample.world_of Sample.fs_ab) Sample.hello).
  - reflexivity.
  - right. by left.
  - vm_compute. reflexivity.
Defined.

(** ** The ledger across runs *)

Section LedgerRuns.
Context {U : Unicode} {L : Library}.
Import Writer.

Lemma _load_existing_urls_run metadata w :
  exists warn,
    _load_existing_urls metadata w
    = (Ok (Spec.persisted_urls (fs w) metadata),
       {| fs := fs w; console := console w ++ warn; trace := trace w |})
    /\ (warn = [] \/ exists t, files (fs w) !! metadata = Some (TextFile t)).
Proof.
  unfold _load_existing_urls, bind, exists_file, try_except, read_file,
    Spec.persisted_urls.
  destruct (files (fs w) !! metadata) as [[t|j]|] eqn:Hf.
  - rewrite bool_decide_eq_true_2 by eauto. cbv beta. rewrite Hf.
    unfold raise, print, ret. cbn [fs console trace].
    exists [WarnLoadMetadata]. split; [done | eauto].
  - rewrite bool_decide_eq_true_2 by eauto. cbv beta. rewrite Hf.
    unfold ret. exists []. rewrite app_nil_r. split; [by destruct w | by left].
  - rewrite bool_decide_eq_false_2 by (intros [? ?]; done).
    unfold ret. exists []. rewrite app_nil_r. split; [by destruct w | by left].
Qed.

(** X8. Saving then loading the ledger is a round trip: when the ledger
    file can be written, [_load_existing_urls] reads back, without a
    warning, exactly the set loaded before and the URLs given to
    [_save_metadata]. *)
Theorem save_then_load env self (urls : list pystr) w :
  metadata_file self ∉ denied (fs w) ->
  exists w1,
    _save_metadata env self urls w = (Ok tt, w1)
    /\ _load_existing_urls (metadata_file self) w1
       = (Ok (existing_urls self ∪ list_to_set urls), w1).
Proof.
  intros Hd. rewrite _save_metadata_run.
  destruct (decide (metadata_file self ∈ denied (fs w))); [done|].
  eexists. split; [reflexivity|].
  unfold _load_existing_urls, bind, exists_file, try_except, read_file.
  cbn [fs files]. rewrite lookup_insert_eq.
  rewrite bool_decide_eq_true_2 by eauto. cbv beta. cbn [fs files].
  rewrite lookup_insert_eq. unfold ret. cbn [processed_urls default]. unfold id.
  by rewrite list_to_set_elements_L.
Qed.



End LedgerRuns.

Lemma save_then_load_witness :
  exists w1,
    Writer._save_metadata Sample.env_detected Sample.writer_ab [Sample.url_c]
      (Sample.world_of Sample.fs_ab) = (Ok tt, w1)
    /\ Writer._load_existing_urls (Writer.metadata_file Sample.writer_ab) w1
       = (Ok ({[ Sample.url_a; Sample.url_b ]} ∪ list_to_set [Sample.url_c]), w1).
Proof.
  apply (save_then_load Sample.env_detected Sample.writer_ab [Sample.url_c]
           (Sample.world_of Sample.fs_ab)).
  apply (bool_decide_eq_false_1
           (Writer.metadata_file Sample.writer_ab
            ∈ denied (fs (Sample.world_of Sample.fs_ab)))).
  vm_compute. reflexivity.
Defined.


(** ** Feed entries and downloads *)

Section FeedFacts.
Context {U : Unicode} {L : Library}.



(** X11. Every article [fetch_rss_feed] returns has a one-line title, a
    URL that passed the validation, no content and no preset slug. *)
Theorem feed_articles_shape env config w (articles : list Article) (a : Article) :
  fst (Fetcher.fetch_rss_feed env config w) = Ok articles ->
  a ∈ articles ->
  Props.one_line (title a)
  /\ (exists link, http_url link = Some (url a))
  /\ content a = None
  /\ slug a = None.
Proof.
  rewrite fetch_rss_feed_run. cbn [fst]. intros Hrun Ha.
  destruct (feed env (rss_url config)) as [parsed|];
    injection Hrun as <-; [|inversion Ha].
  apply list_elem_of_omap in Ha as (e & _ & He).
  unfold Fetcher._parse_rss_entry in He.
  destruct (Fetcher.entry_published e) as [published|]; [|done].
  destruct (e_title e) as [t|]; [|done].
  destruct (e_link e) as [l|]; [|done]. cbn in He.
  destruct (http_url l) as [u|] eqn:Hu; [|done]. cbn in He.
  injection He as <-. cbn [title url content slug].
  split; [apply clean_title_chars|]. eauto.
Qed.
End FeedFacts.


Section DownloadFacts.
Context {U : Unicode} {L : Library}.

(** What one call of [fetch_article_content] does. *)
Lemma fetch_article_content_run env config a w :
  exists b,
    Fetcher.fetch_article_content env config a w
    = (Ok b,
       {| fs := fs w; console := console w;
          trace := trace w
                   ++ (if fetch_full_content config then [HttpGet (url a)]
                       else []) |})
    /\ Props.same_identity a b
    /\ Props.keeps_known a b
    /\ (fetch_full_content config = false -> b = a).
Proof.
  unfold Fetcher.fetch_article_content, Props.same_identity, Props.keeps_known.
  destruct (fetch_full_content config); cbn [negb].
  - unfold try_except, bind, emit.
    destruct (fetch_page env (url a)) as [p|]; unfold raise, ret.
    + eexists. split; [reflexivity|]. cbn [title url summary categories slug
                                           author published content].
      split; [done|]. split; [|done]. split; [|split].
      * intros Ha. by rewrite Ha.
      * intros [d Hd]. by rewrite Hd.
      * destruct (truthy (text p)) eqn:Ht; [right | by left]. done.
    + exists a. split; [reflexivity|]. split; [done|]. split; [|done].
      split; [done|]. split; [done | by left].
  - exists a. rewrite app_nil_r. split; [by destruct w|].
    split; [done|]. split; [|done]. split; [done|]. split; [done | by left].
Qed.






End DownloadFacts.

Lemma feed_articles_shape_witness :
  Props.one_line (title (Sample.article (lit "Three") Sample.url_c None))
  /\ (exists link,
        http_url (Library:=Sample.library) link
        = Some (url (Sample.article (lit "Three") Sample.url_c None))).
Proof.
  destruct (feed_articles_shape (U:=Latin1.latin1) (L:=Sample.library)
              Sample2.env_broken_feed Sample.config_default
              (Sample.world_of Sample.fs_ab)
              [Sample.article (lit "One") Sample.url_a None;
               Sample.article (lit "Three") Sample.url_c None]
              (Sample.article (lit "Three") Sample.url_c None))
    as (H1 & H2 & _).
  - vm_compute. reflexivity.
  - apply list_elem_of_further, list_elem_of_here.
  - split; [exact H1 | exact H2].
Defined.



(** ** Detection and registration *)

Section DetectionFacts.
Context {U : Unicode}.
Import Rag.

Lemma wait_for_service_found env self app_folder port pid : forall k n k0 w,
  (k < n)%nat ->
  (forall j, (k0 <= j < k0 + k)%nat ->
             Props.not_ready (poll env app_folder j)) ->
  port_file (poll env app_folder (k0 + k)) = Some (Some port) ->
  pid_file (poll env app_folder (k0 + k)) = Some (Some pid) ->
  wait_for_service env self app_folder n k0 w
  = (Ok (true,
         {| config_path := config_path self;
            rag_service_url := Some (lit "http://localhost:" ++ str_strip port);
            rag_service_port := Some (str_strip port);
            rag_service_pid := Some (str_strip pid) |}),
     Spec.after_sleeps k w).
Proof.
  induction k as [|k IH]; intros n k0 w Hk Hwait Hport Hpid;
    (destruct n as [|n]; [lia|]); cbn [wait_for_service].
  - rewrite Nat.add_0_r in Hport, Hpid. rewrite Hport, Hpid.
    unfold ret. by rewrite <- after_sleeps_0.
  - assert (wait_for_service env self app_folder n (S k0)
              {| fs := fs w; console := console w;
                 trace := trace w ++ [Sleep 1] |}
            = (Ok (true,
                   {| config_path := config_path self;
                      rag_service_url :=
                        Some (lit "http://localhost:" ++ str_strip port);
                      rag_service_port := Some (str_strip port);
                      rag_service_pid := Some (str_strip pid) |}),
               Spec.after_sleeps (S k) w)) as Hrest.
    { rewrite <- after_sleeps_S. apply IH; [lia | |
        by replace (S k0 + k)%nat with (k0 + S k)%nat by lia..].
      intros j Hj. apply Hwait. lia. }
    destruct (Hwait k0) as [E | E]; [lia | |]; rewrite E.
    + unfold bind, sleep, emit. cbn [Qnum Z.ltb Z.compare]. exact Hrest.
    + destruct (port_file (poll env app_folder k0));
        unfold bind, sleep, emit; cbn [Qnum Z.ltb Z.compare]; exact Hrest.
Qed.

(** X15. When the configuration loads and the application folder exists,
    and both marker files are readable at the poll after [k] seconds, [k]
    less than the window, one of them missing at each poll before,
    [detect_rag_service] returns [True] after exactly [k] pauses of one
    second, with the port and the PID stripped of white space and the URL
    [http://localhost:<port>]. *)
Theorem service_detected_after_wait env self app_name max_wait_time w
    (data_dir : path) (k : nat) (port pid : pystr) :
  config_exists env (config_path self) = true ->
  client_data_dir env (config_path self) = Some data_dir ->
  app_folder_exists env (app_folder_of data_dir app_name) = true ->
  (Z.of_nat k < max_wait_time)%Z ->
  (forall j, (j < k)%nat ->
             Props.not_ready (poll env (app_folder_of data_dir app_name) j)) ->
  port_file (poll env (app_folder_of data_dir app_name) k) = Some (Some port) ->
  pid_file (poll env (app_folder_of data_dir app_name) k) = Some (Some pid) ->
  detect_rag_service env self app_name max_wait_time w
  = (Ok (true,
         {| config_path := config_path self;
            rag_service_url := Some (lit "http://localhost:" ++ str_strip port);
            rag_service_port := Some (str_strip port);
            rag_service_pid := Some (str_strip pid) |}),
     Spec.after_sleeps k w).
Proof.
  intros Hconf Hdir Hfolder Hk Hwait Hport Hpid.
  unfold detect_rag_service, try_except. rewrite Hconf. cbn [negb].
  unfold bind. rewrite Hdir. unfold ret at 1. rewrite Hfolder. cbn [negb].
  by rewrite (wait_for_service_found env self _ port pid k); [| lia | ..];
    [| intros j Hj; apply Hwait; lia | |].
Qed.

Lemma wait_for_service_fields env self app_folder n : forall k w found self' w',
  wait_for_service env self app_folder n k w = (Ok (found, self'), w') ->
  config_path self' = config_path self
  /\ (found = true ->
      exists port, rag_service_port self' = Some port
                   /\ rag_service_url self'
                      = Some (lit "http://localhost:" ++ port)
                   /\ is_Some (rag_service_pid self'))
  /\ (found = false ->
      rag_service_url self' = rag_service_url self
      /\ rag_service_pid self' = rag_service_pid self).
Proof.
  induction n as [|n IH]; intros k w found self' w'; cbn [wait_for_service].
  - unfold ret. intros [= <- <- <-]. by repeat split.
  - destruct (port_file (poll env app_folder k)) as [[port|]|];
      destruct (pid_file (poll env app_folder k)) as [[pid|]|];
      try (unfold ret; intros [= <- <- <-]; repeat split; try done; eauto).
    all: unfold bind, sleep, emit; cbn [Qnum Z.ltb Z.compare]; apply IH.
Qed.

(** X16. [detect_rag_service] returns, keeps the path of the configuration
    and touches no file. When it returns [True] the detector holds a port,
    a PID and the URL [http://localhost:<port>]; when it returns [False]
    the URL and the PID are the ones it had. So on a detector whose URL
    was unset, the answer and [is_service_available] agree. *)
Theorem detection_sets_url_when_found env self app_name max_wait_time w :
  exists found self' w',
    detect_rag_service env self app_name max_wait_time w = (Ok (found, self'), w')
    /\ fs w' = fs w
    /\ config_path self' = config_path self
    /\ (found = true ->
        exists port, rag_service_port self' = Some port
                     /\ Queries.get_service_url self'
                        = Some (lit "http://localhost:" ++ port)
                     /\ is_Some (rag_service_pid self'))
    /\ (found = false ->
        Queries.get_service_url self' = Queries.get_service_url self)
    /\ (rag_service_url self = None ->
        found = Queries.is_service_available self').
Proof.
  destruct (detect_rag_service_returns env self app_name max_wait_time w)
    as (found & self' & m & Hrun).
  exists found, self', (Spec.after_sleeps m w). split; [exact Hrun|].
  split; [done|].
  assert (config_path self' = config_path self
          /\ (found = true ->
              exists port, rag_service_port self' = Some port
                           /\ rag_service_url self'
                              = Some (lit "http://localhost:" ++ port)
                           /\ is_Some (rag_service_pid self'))
          /\ (found = false ->
              rag_service_url self' = rag_service_url self
              /\ rag_service_pid self' = rag_service_pid self))
    as (Hpath & Htrue & Hfalse).
  { revert Hrun. unfold detect_rag_service, try_except.
    destruct (config_exists env (config_path self)); cbn [negb];
      [|unfold ret; intros [= <- <- _]; by repeat split].
    unfold bind.
    destruct (client_data_dir env (config_path self)) as [d|];
      [|unfold raise, ret; intros [= <- <- _]; by repeat split].
    unfold ret at 1.
    destruct (app_folder_exists env (app_folder_of d app_name)); cbn [negb];
      [|unfold ret; intros [= <- <- _]; by repeat split].
    destruct (wait_for_service env self (app_folder_of d app_name)
                (Z.to_nat max_wait_time) 0 w) as [[[f s']|e] w1] eqn:Hwait;
      [|unfold ret; intros [= <- <- _]; by repeat split].
    intros [= <- <- _]. by eapply wait_for_service_fields. }
  split; [done|]. split; [exact Htrue|].
  split; [by intros Hf; destruct (Hfalse Hf)|].
  intros Hnone. unfold Queries.is_service_available. destruct found.
  - destruct Htrue as (port & _ & -> & _); [done|].
    by rewrite bool_decide_eq_true_2.
  - destruct Hfalse as [-> _]; [done|]. rewrite Hnone.
    rewrite bool_decide_eq_false_2; [done|]. by intros [? ?].
Qed.

Lemma is_folder_registered_run env self base folder w :
  is_connected self = true ->
  service_url self = Some base ->
  truthy base = true ->
  is_folder_registered env self folder w
  = (Ok (Props.listed env base (path_str folder)),
     {| fs := fs w; console := console w;
        trace := trace w ++ [HttpGet (base ++ lit "/api/watched-folders")] |}).
Proof.
  intros Hc Hu Hb. unfold is_folder_registered, Props.listed.
  rewrite Hc, Hu. cbn [negb truthy_opt orb default]. rewrite Hb.
  cbn [negb]. unfold id, try_except, bind, emit.
  destruct (watched_folders env base) as [|code [folders|]];
    unfold raise, ret; [done| |]; by destruct (code =? 200)%Z.
Qed.

(** X17. On a connected integration, [register_articles_folder] asks
    once for the watched folders. When the absolute output directory is
    listed it sends nothing more; otherwise it posts the directory once.
    It returns [True] exactly when the directory was listed or the post
    was answered 200, and then [folder_registered] is set; otherwise the
    integration is unchanged. It touches no file. *)
Theorem register_articles_folder_outcome env self (base : pystr) w :
  is_connected self = true ->
  service_url self = Some base ->
  truthy base = true ->
  register_articles_folder env self w
  = (let folder := path_str (absolute env (output_dir (config self))) in
     let ok := Props.listed env base folder || Props.accepted env base folder in
     (Ok (ok, if ok then with_folder_registered self else self),
      {| fs := fs w; console := console w;
         trace := trace w ++ Props.registration_events env base folder |})).
Proof.
  intros Hc Hu Hb. unfold register_articles_folder.
  rewrite Hc. cbn [negb orb].
  replace (truthy_opt (service_url self)) with true
    by (rewrite Hu; cbn [truthy_opt]; by rewrite Hb).
  cbn [negb]. unfold try_except. unfold bind at 1.
  rewrite (is_folder_registered_run env self base _ w Hc Hu Hb).
  unfold Props.registration_events. cbv zeta.
  destruct (Props.listed env base _) eqn:Hl; cbn [orb].
  - reflexivity.
  - unfold bind, emit, Props.accepted. rewrite Hu.
    cbn [default fs console trace]. unfold id.
    rewrite <- app_assoc. cbn [app].
    destruct (add_folder env base _) as [|code body]; unfold raise, ret;
      [reflexivity|]. by destruct (code =? 200)%Z.
Qed.

Lemma register_articles_folder_fields env self w r self' w' :
  register_articles_folder env self w = (Ok (r, self'), w') ->
  config self' = config self /\ detector self' = detector self
  /\ service_url self' = service_url self
  /\ is_connected self' = is_connected self
  /\ folder_registered self' = (r || folder_registered self).
Proof.
  unfold register_articles_folder.
  destruct (negb (is_connected self) || negb (truthy_opt (service_url self))).
  { unfold ret. by intros [= <- <- _]. }
  unfold try_except. unfold bind at 1.
  destruct (is_folder_registered_returns env self
              (absolute env (output_dir (config self))) w)
    as (b & w1 & -> & _).
  destruct b; [unfold ret; by intros [= <- <- _]|].
  unfold bind, emit.
  destruct (add_folder env _ _) as [|code body]; unfold raise, ret;
    [by intros [= <- <- _]|].
  destruct (code =? 200)%Z; by intros [= <- <- _].
Qed.

(** X18. When the detection succeeds, [setup_rag_connection] returns
    [True] whatever the registration answers: the integration is
    connected to the detected URL, its configuration is unchanged, and
    only [folder_registered] tells whether the folder was registered. *)
Theorem setup_connected_once_detected env self w (det : RAGServiceDetector) w1 :
  detect_rag_service env (detector self) (rag_app_name (config self)) 30 w
  = (Ok (true, det), w1) ->
  exists self' w',
    setup_rag_connection env self w = (Ok (true, self'), w')
    /\ fs w' = fs w
    /\ is_connected self' = true
    /\ service_url self' = Queries.get_service_url det
    /\ detector self' = det
    /\ config self' = config self.
Proof.
  intros Hdet. unfold setup_rag_connection. unfold bind at 1. rewrite Hdet.
  cbn [fst snd]. unfold bind.
  assert (fs w1 = fs w) as Hfs1.
  { destruct (detect_rag_service_returns env (detector self)
                (rag_app_name (config self)) 30 w) as (? & ? & m & Hrun).
    rewrite Hrun in Hdet. by injection Hdet as _ _ <-. }
  match goal with
  | |- context [register_articles_folder env ?s w1] =>
      destruct (register_articles_folder_returns env s w1)
        as ([r self'] & w' & Hreg & Hfs & _);
      rewrite Hreg;
      destruct (register_articles_folder_fields env s w1 r self' w' Hreg)
        as (Hconfig & Hdetector & Hurl & Hconn & _)
  end.
  unfold ret. cbn [snd]. eexists _, _. split; [reflexivity|].
  split; [congruence|]. by rewrite Hconn, Hurl, Hdetector, Hconfig.
Qed.
End DetectionFacts.

Lemma service_detected_after_wait_witness :
  Rag.detect_rag_service (U:=Latin1.latin1) Sample.env_detected
    (Rag.detector Sample.integration) (rag_app_name Sample.config_default) 30
    (Sample.world_of Sample.fs_ab)
  = (Ok (true, Sample2.detector_found),
     Spec.after_sleeps 2 (Sample.world_of Sample.fs_ab)).
Proof.
  rewrite (service_detected_after_wait (U:=Latin1.latin1) Sample.env_detected
             (Rag.detector Sample.integration)
             (rag_app_name Sample.config_default) 30
             (Sample.world_of Sample.fs_ab)
             (Path (lit "/home/user/SyftBox")) 2 (lit "8080") (lit "4242")).
  - vm_compute. reflexivity.
  - reflexivity.
  - reflexivity.
  - reflexivity.
  - reflexivity.
  - intros j Hj. destruct j as [|[|j]]; [by left | by left | lia].
  - reflexivity.
  - reflexivity.
Defined.

(** The folder is watched already: one request, no registration sent. *)
Lemma register_articles_folder_outcome_witness :
  Rag.register_articles_folder Sample2.env_watched Sample2.integration_connected
    (Sample.world_of Sample.fs_ab)
  = (Ok (true, Rag.with_folder_registered Sample2.integration_connected),
     {| fs := Sample.fs_ab; console := [];
        trace := [HttpGet (lit "http://localhost:8080/api/watched-folders")] |}).
Proof.
  rewrite (register_articles_folder_outcome Sample2.env_watched
             Sample2.integration_connected (lit "http://localhost:8080")
             (Sample.world_of Sample.fs_ab) eq_refl eq_refl eq_refl).
  vm_compute. reflexivity.
Defined.

(** The service is found and refuses the registration: connected all the
    same. *)
Lemma setup_connected_once_detected_witness :
  exists self' w',
    Rag.setup_rag_connection (U:=Latin1.latin1) Sample2.env_refused
      Sample.integration (Sample.world_of Sample.fs_ab)
    = (Ok (true, self'), w')
    /\ Rag.is_connected self' = true
    /\ Rag.service_url self' = Some (lit "http://localhost:8080").
Proof.
  eassert (Rag.detect_rag_service (U:=Latin1.latin1) Sample2.env_refused
             (Rag.detector Sample.integration)
             (rag_app_name (Rag.config Sample.integration)) 30
             (Sample.world_of Sample.fs_ab) = (Ok (true, _), _)) as Hdet
    by (vm_compute; reflexivity).
  destruct (setup_connected_once_detected (U:=Latin1.latin1) _ _ _ _ _ Hdet)
    as (self' & w' & Hrun & _ & Hc & Hu & _).
  exists self', w'. split; [exact Hrun|]. split; [exact Hc|].
  rewrite Hu. reflexivity.
Defined.

(** ** Status queries *)

Section QueryFacts.
Import Rag Queries.

Lemma verify_service_health_run srv self w :
  exists healthy w',
    verify_service_health srv self w = (Ok healthy, w')
    /\ fs w' = fs w
    /\ (truthy_opt (rag_service_url self) = false -> w' = w)
    /\ (healthy = true <->
        exists url body,
          rag_service_url self = Some url /\ truthy url = true
          /\ get_health srv (url ++ lit "/health") = Status 200 body).
Proof.
  unfold verify_service_health.
  destruct (rag_service_url self) as [url|]; cbn [truthy_opt negb default].
  - destruct (truthy url) eqn:Hurl; cbn [negb].
    + unfold id, try_except, bind, emit.
      destruct (get_health srv (url ++ lit "/health")) as [|code body] eqn:Hh;
        unfold raise, ret.
      * eexists _, _. split; [reflexivity|]. split; [done|]. split; [done|].
        split; [done|]. intros (? & ? & [= <-] & _ & ?). congruence.
      * eexists _, _. split; [reflexivity|]. split; [done|]. split; [done|].
        split.
        -- intros ->%Z.eqb_eq. eauto.
        -- intros (? & ? & [= <-] & _ & H). rewrite Hh in H.
           by injection H as -> _.
    + unfold ret. eexists _, _. split; [reflexivity|].
      split; [done|]. split; [done|]. split; [done|].
      intros (? & ? & [= <-] & ? & _). congruence.
  - unfold ret. eexists _, _. split; [reflexivity|].
    split; [done|]. split; [done|]. split; [done|].
    by intros (? & ? & ? & _).
Qed.

(** X19. The service information of a detector never fails. It reports
    the service healthy exactly when the URL is known and the health route
    answered 200, so a healthy service is always an available one; and
    when no URL is known it sends no request. *)
Theorem service_info_consistent srv (self : RAGServiceDetector) w :
  exists info w',
    detector_service_info srv self w = (Ok info, w')
    /\ fs w' = fs w
    /\ info_url info = get_service_url self
    /\ info_available info = is_service_available self
    /\ (info_healthy info = true -> info_available info = true)
    /\ (info_healthy info = true <->
        exists url body,
          rag_service_url self = Some url /\ truthy url = true
          /\ get_health srv (url ++ lit "/health") = Status 200 body)
    /\ (truthy_opt (rag_service_url self) = false -> w' = w).
Proof.
  unfold detector_service_info, bind.
  destruct (is_service_available self) eqn:Hav.
  - destruct (verify_service_health_run srv self w)
      as (healthy & w' & -> & Hfs & Hsame & Hiff).
    unfold ret. eexists _, _. split; [reflexivity|].
    cbn [info_url info_available info_healthy].
    split; [done|]. split; [reflexivity|]. split; [done|]. split; [done|].
    split; [exact Hiff | exact Hsame].
  - unfold ret. eexists _, _. split; [reflexivity|].
    cbn [info_url info_available info_healthy].
    split; [done|]. split; [reflexivity|]. split; [done|]. split; [done|].
    split; [|done]. split; [done|].
    intros (url & ? & Hurl & _). unfold is_service_available in Hav.
    rewrite Hurl in Hav. apply bool_decide_eq_false_1 in Hav.
    destruct Hav. eauto.
Qed.

(** What the statistics route gives. *)
Lemma get_rag_stats_run srv self w :
  exists j w',
    get_rag_stats srv self w = (Ok j, w')
    /\ fs w' = fs w
    /\ (is_connected self = false -> j = default_stats /\ w' = w)
    /\ (j = default_stats
        \/ exists url, service_url self = Some url /\ truthy url = true
                       /\ get_stats srv (url ++ lit "/api/stats")
                          = Status 200 (Some j)).
Proof.
  unfold get_rag_stats.
  destruct (is_connected self); cbn [negb orb];
    [|unfold ret; eexists _, _; split; [reflexivity|]; split; [done|];
      split; [done | by left]].
  destruct (service_url self) as [url|]; cbn [truthy_opt negb default];
    [|unfold ret; eexists _, _; split; [reflexivity|]; split; [done|];
      split; [done | by left]].
  destruct (truthy url) eqn:Hurl; cbn [negb];
    [|unfold ret; eexists _, _; split; [reflexivity|]; split; [done|];
      split; [done | by left]].
  unfold id, try_except, bind, emit.
  destruct (get_stats srv (url ++ lit "/api/stats")) as [|code [j|]] eqn:Hs;
    unfold raise, ret.
  - eexists _, _. split; [reflexivity|]. split; [done|]. split; [done | by left].
  - destruct (code =? 200)%Z eqn:Hc.
    + apply Z.eqb_eq in Hc as ->. eexists _, _. split; [reflexivity|].
      split; [done|]. split; [done|]. right. eauto.
    + eexists _, _. split; [reflexivity|]. split; [done|].
      split; [done | by left].
  - destruct (code =? 200)%Z;
      (eexists _, _; split; [reflexivity|]; split; [done|];
       split; [done | by left]).
Qed.

(** What the indexing route gives. *)
Lemma get_indexing_status_run srv self w :
  exists j w',
    get_indexing_status srv self w = (Ok j, w')
    /\ fs w' = fs w
    /\ (is_connected self = false
        -> j = status_of (lit "disconnected") /\ w' = w)
    /\ ((exists s, j = status_of s)
        \/ exists url, service_url self = Some url /\ truthy url = true
                       /\ get_indexing srv (url ++ lit "/api/indexing-status")
                          = Status 200 (Some j)).
Proof.
  unfold get_indexing_status.
  destruct (is_connected self); cbn [negb orb];
    [|unfold ret; eexists _, _; split; [reflexivity|]; split; [done|];
      split; [done | left; eauto]].
  destruct (service_url self) as [url|]; cbn [truthy_opt negb default];
    [|unfold ret; eexists _, _; split; [reflexivity|]; split; [done|];
      split; [done | left; eauto]].
  destruct (truthy url) eqn:Hurl; cbn [negb];
    [|unfold ret; eexists _, _; split; [reflexivity|]; split; [done|];
      split; [done | left; eauto]].
  unfold id, try_except, bind, emit.
  destruct (get_indexing srv (url ++ lit "/api/indexing-status"))
    as [|code [j|]] eqn:Hs; unfold raise, ret.
  - eexists _, _. split; [reflexivity|]. split; [done|].
    split; [done | left; eauto].
  - destruct (code =? 200)%Z eqn:Hc.
    + apply Z.eqb_eq in Hc as ->. eexists _, _. split; [reflexivity|].
      split; [done|]. split; [done|]. right. eauto.
    + eexists _, _. split; [reflexivity|]. split; [done|].
      split; [done | left; eauto].
  - destruct (code =? 200)%Z;
      (eexists _, _; split; [reflexivity|]; split; [done|];
       split; [done | left; eauto]).
Qed.

End QueryFacts.

Section ServiceInfo.
Import Rag Queries.

Lemma get_rag_stats_answer srv self w url j :
  is_connected self = true ->
  service_url self = Some url ->
  truthy url = true ->
  get_stats srv (url ++ lit "/api/stats") = Status 200 (Some j) ->
  fst (get_rag_stats srv self w) = Ok j.
Proof.
  intros Hc Hu Ht Hs. unfold get_rag_stats. rewrite Hc, Hu.
  cbn [negb orb truthy_opt default]. rewrite Ht. cbn [negb].
  unfold id, try_except, bind, emit. by rewrite Hs.
Qed.

Lemma get_indexing_status_answer srv self w url j :
  is_connected self = true ->
  service_url self = Some url ->
  truthy url = true ->
  get_indexing srv (url ++ lit "/api/indexing-status") = Status 200 (Some j) ->
  fst (get_indexing_status srv self w) = Ok j.
Proof.
  intros Hc Hu Ht Hs. unfold get_indexing_status. rewrite Hc, Hu.
  cbn [negb orb truthy_opt default]. rewrite Ht. cbn [negb].
  unfold id, try_except, bind, emit. by rewrite Hs.
Qed.

(** The four lookups of [get_service_info] on the two answers. *)
Lemma lookups_run j1 j2 (k : json -> json -> json -> json -> list (pystr * json)) w :
  (total_documents <- json_get j1 (lit "total_documents") (JNumber 0) ;;
   watched_folders <- json_get j1 (lit "watched_folders") (JNumber 0) ;;
   status <- json_get j2 (lit "status") (JString (lit "unknown")) ;;
   queue_size <- json_get j2 (lit "queue_size") (JNumber 0) ;;
   ret (k total_documents watched_folders status queue_size))%M w
  = if Props.is_object j1 && Props.is_object j2
    then (Ok (k (match j1 with
                 | JObject d => items_get d (lit "total_documents") (JNumber 0)
                 | _ => JNull
                 end)
                (match j1 with
                 | JObject d => items_get d (lit "watched_folders") (JNumber 0)
                 | _ => JNull
                 end)
                (match j2 with
                 | JObject d => items_get d (lit "status") (JString (lit "unknown"))
                 | _ => JNull
                 end)
                (match j2 with
                 | JObject d => items_get d (lit "queue_size") (JNumber 0)
                 | _ => JNull
                 end)), w)
    else (Raise AttributeError, w).
Proof. destruct j1, j2; reflexivity. Qed.

(** X21. [RAGIntegration.get_service_info] touches no file, and fails in
    one case only: the integration is connected and the statistics route
    or the indexing route answers 200 with JSON that is not an object.
    The error is then an [AttributeError], which nothing catches. *)
Theorem get_service_info_failure env srv (self : RAGIntegration) w :
  (forall e w', get_service_info env srv self w = (Raise e, w') ->
                e = AttributeError /\ fs w' = fs w)
  /\ ((exists e w', get_service_info env srv self w = (Raise e, w'))
      <-> is_connected self = true
          /\ exists url,
               service_url self = Some url /\ truthy url = true
               /\ (Props.answers_non_object
                     (get_stats srv (url ++ lit "/api/stats"))
                   \/ Props.answers_non_object
                        (get_indexing srv (url ++ lit "/api/indexing-status")))).
Proof.
  remember (get_service_info env srv self w) as run eqn:Hrun.
  unfold get_service_info in Hrun. destruct (is_connected self) eqn:Hc.
  2:{ unfold bind, ret in Hrun. subst run. split; [done|]. split.
      - by intros (? & ? & ?).
      - by intros [? _]. }
  unfold bind at 1 in Hrun.
  destruct (verify_service_health_run srv (detector self) w)
    as (healthy & w0 & Hh & Hfs0 & _).
  rewrite Hh in Hrun. unfold bind at 1 in Hrun.
  destruct (get_rag_stats_run srv self w0) as (j1 & w1 & Hs & Hfs1 & _ & Hj1).
  rewrite Hs in Hrun. unfold bind at 1 in Hrun.
  destruct (get_indexing_status_run srv self w1)
    as (j2 & w2 & Hi & Hfs2 & _ & Hj2).
  rewrite Hi in Hrun.
  rewrite (lookups_run j1 j2
             (fun total_documents watched_folders status queue_size =>
                _ ++ [(_, total_documents); (_, watched_folders);
                      (_, status); (_, queue_size); _])) in Hrun.
  destruct (Props.is_object j1) eqn:Ho1;
    [destruct (Props.is_object j2) eqn:Ho2|]; cbn [andb] in Hrun; subst run.
  - split; [done|]. split; [by intros (? & ? & ?)|].
    intros (_ & url & Hu & Ht & [(j & Hj & Hno) | (j & Hj & Hno)]).
    + pose proof (get_rag_stats_answer srv self w0 url j Hc Hu Ht Hj) as E.
      rewrite Hs in E. injection E as <-. congruence.
    + pose proof (get_indexing_status_answer srv self w1 url j Hc Hu Ht Hj) as E.
      rewrite Hi in E. injection E as <-. congruence.
  - split; [intros e w' [= <- <-]; split; [done | congruence]|].
    split; [intros _ | eauto]. split; [done|].
    destruct Hj2 as [[s ->] | (url & Hu & Ht & Hj)]; [discriminate Ho2|].
    exists url. split; [done|]. split; [done|]. right. by exists j2.
  - split; [intros e w' [= <- <-]; split; [done | congruence]|].
    split; [intros _ | eauto]. split; [done|].
    destruct Hj1 as [-> | (url & Hu & Ht & Hj)]; [discriminate Ho1|].
    exists url. split; [done|]. split; [done|]. left. by exists j1.
Qed.
End ServiceInfo.

(** A service that answers the statistics route with a list. *)
Lemma get_service_info_failure_witness :
  exists w',
    Queries.get_service_info Sample.env_detected Sample2.service_odd
      Sample2.integration_connected (Sample.world_of Sample.fs_ab)
    = (Raise AttributeError, w').
Proof.
  destruct (get_service_info_failure Sample.env_detected Sample2.service_odd
              Sample2.integration_connected (Sample.world_of Sample.fs_ab))
    as [Hkind [_ Hfails]].
  destruct Hfails as (e & w' & Hrun).
  - split; [reflexivity|]. exists (lit "http://localhost:8080").
    split; [reflexivity|]. split; [reflexivity|]. left.
    exists (Queries.JArray []). by split.
  - exists w'. by destruct (Hkind e w' Hrun) as [<- _].
Defined.

(** ** The command *)

Section CommandFacts.
Context {U : Unicode} {L : Library}.

Lemma _parse_rss_entry_slug e a :
  Fetcher._parse_rss_entry e = Some a -> slug a = None.
Proof.
  unfold Fetcher._parse_rss_entry.
  destruct (Fetcher.entry_published e) as [published|]; [|done].
  destruct (e_title e) as [t|]; [|done].
  destruct (e_link e) as [l|]; [|done]. cbn.
  destruct (http_url l) as [u|]; [|done]. cbn. by intros [= <-].
Qed.

(** The loop of [fetch_articles], whatever the delay: it changes no file,
    it keeps the identity of the articles, and it can only fail in
    [time.sleep]. *)
Lemma fetch_loop_any env config articles : forall w r w',
  Fetcher.fetch_loop env config articles w = (r, w') ->
  fs w' = fs w
  /\ (forall l, r = Ok l -> Forall2 Props.same_identity articles l)
  /\ (forall e, r = Raise e ->
                e = ValueError /\ (Qnum (rate_limit_delay config) < 0)%Z).
Proof.
  induction articles as [|a rest IH]; intros w r w'; cbn [Fetcher.fetch_loop].
  - unfold ret. intros [= <- <-]. split; [done|]. split; [|done].
    intros l [= <-]. constructor.
  - unfold bind at 1.
    destruct (fetch_article_content_run env config a w) as (b & -> & Hid & _).
    unfold bind at 1.
    set (w1 := {| fs := fs w; console := console w;
                  trace := trace w ++ (if fetch_full_content config
                                       then [HttpGet (url a)] else []) |}).
    assert (exists w2, fs w2 = fs w
              /\ ((if truthy rest then sleep (rate_limit_delay config)
                   else ret tt) w1 = (Ok tt, w2)
                  \/ ((if truthy rest then sleep (rate_limit_delay config)
                       else ret tt) w1 = (Raise ValueError, w2)
                      /\ (Qnum (rate_limit_delay config) < 0)%Z)))
      as (w2 & Hfs2 & [-> | [-> Hneg]]).
    { destruct (truthy rest); [|exists w1; split; [done | by left]].
      unfold sleep. destruct (Qnum (rate_limit_delay config) <? 0)%Z eqn:Hq.
      - exists w1. split; [done|]. right. split; [done|]. by apply Z.ltb_lt.
      - eexists. split; [|left; reflexivity]. done. }
    + unfold bind.
      destruct (Fetcher.fetch_loop env config rest w2) as [[rest'|e] w3] eqn:Hrest;
        destruct (IH _ _ _ Hrest) as (Hfs & Hok & Herr).
      * unfold ret. intros [= <- <-]. split; [congruence|]. split; [|done].
        intros l [= <-]. constructor; [done | by apply Hok].
      * intros [= <- <-]. split; [congruence|]. split; [done|].
        intros e' [= <-]. by apply Herr.
    + intros [= <- <-]. split; [done|]. split; [done|]. by intros e [= <-].
Qed.

Lemma fetch_articles_any env config w r w' :
  Fetcher.fetch_articles env config w = (r, w') ->
  fs w' = fs w
  /\ (forall l, r = Ok l -> Forall (fun a => slug a = None) l)
  /\ (forall e, r = Raise e ->
                e = ValueError /\ (Qnum (rate_limit_delay config) < 0)%Z).
Proof.
  unfold Fetcher.fetch_articles, bind. rewrite fetch_rss_feed_run.
  set (articles := match feed env (rss_url config) with
                   | Some parsed => _
                   | None => []
                   end).
  assert (Forall (fun a => slug a = None) articles) as Hslug.
  { subst articles. destruct (feed env (rss_url config)); [|constructor].
    apply Forall_forall. intros a Ha.
    apply list_elem_of_omap in Ha as (e & _ & He).
    by eapply _parse_rss_entry_slug. }
  destruct (negb (truthy articles)).
  - unfold ret. intros [= <- <-]. split; [done|]. split; [|done].
    intros l [= <-]. constructor.
  - intros Hloop.
    destruct (fetch_loop_any env config articles _ r w' Hloop)
      as (Hfs & Hok & Herr).
    split; [exact Hfs|]. split; [|exact Herr].
    intros l Hl. specialize (Hok l Hl).
    clear -Hok Hslug. induction Hok as [|a b articles l Hid _ IH];
      [constructor|].
    apply Forall_cons in Hslug as [Ha Hrest].
    constructor; [|by apply IH].
    destruct Hid as (_ & _ & _ & _ & ->). exact Ha.
Qed.

(** The constructor of the writer: refused, or done with the ledger
    loaded. *)
Lemma init_cases out w :
  (out ∈ denied (fs w) /\ Writer.init out w = (Raise OSError, w))
  \/ ((out ∉ denied (fs w))
      /\ exists warn,
           Writer.init out w
           = (Ok {| Writer.output_dir := out;
                    Writer.metadata_file := out ++ [lit ".metadata.json"];
                    Writer.existing_urls :=
                      Spec.persisted_urls (fs w) (out ++ [lit ".metadata.json"]) |},
              {| fs := fs w; console := console w ++ warn; trace := trace w |})).
Proof.
  change (out ++ [lit ".metadata.json"])
    with (joinpath out (lit ".metadata.json")).
  destruct (decide (out ∈ denied (fs w))) as [Hd|Hd]; [left | right];
    (split; [done|]); unfold Writer.init; unfold bind at 1, mkdir.
  - by rewrite decide_True.
  - rewrite decide_False by done. unfold bind.
    destruct (_load_existing_urls_run (joinpath out (lit ".metadata.json")) w)
      as (warn & E & _).
    rewrite E. by exists warn.
Qed.

(** The document of an article without preset slug. *)
Lemma doc_path_title_slug (self : Writer.MarkdownWriter) (a : Article) :
  truthy_opt (slug a) = false ->
  isalnum slash = false ->
  Spec.doc_path self a
  = Writer.output_dir self ++ [generate_slug a ++ lit ".md"].
Proof.
  intros Hslug Hal.
  pose proof (no_slash_in_title_slug a Hslug Hal) as Hs.
  unfold Spec.doc_path, get_file_path, joinpath.
  rewrite (Path_md_plain _ Hs). cbn [is_absolute].
  by rewrite (is_root_no_slash _ Hs).
Qed.

(** X22. When the system refuses the output directory, the command
    aborts at once: it has not looked for the service, fetched, or written
    anything. *)
Theorem refused_directory_aborts env (o : Cli.options) w :
  Cli.opt_output_dir o ∈ denied (fs w) ->
  Cli.main env o w = (Cli.Aborted, w).
Proof.
  intros Hd. rewrite main_run.
  destruct (init_cases (Cli.opt_output_dir o) w) as [[_ ->] | [Hn _]]; done.
Qed.


(** X24. The command changes files right inside the output directory
    only: every other path holds at the end what it held at the start,
    whatever the feed, the titles and the pages. The hypothesis on the
    Unicode tables is that the slash is not alphanumeric. *)
Theorem main_writes_inside_output_dir env (o : Cli.options) w (p : path) :
  isalnum slash = false ->
  (forall name, p <> Cli.opt_output_dir o ++ [name]) ->
  files (fs (snd (Cli.main env o w))) !! p = files (fs w) !! p.
Proof.
  intros Hal Hp. rewrite main_run.
  destruct (init_cases (Cli.opt_output_dir o) w)
    as [[Hd ->] | [_ (warn & ->)]]; [done|].
  match goal with
  | |- context [Rag.setup_rag_connection env ?s ?w1] =>
      destruct (setup_rag_connection_returns env s w1)
        as (found & rag & w2 & -> & Hfs2 & _)
  end.
  cbn [fs] in Hfs2. destruct found; [|cbn [snd]; by rewrite Hfs2].
  unfold bind at 1.
  destruct (Fetcher.fetch_articles env (Cli.config_of o) w2)
    as [[articles|e] w3] eqn:Hfetch;
    destruct (fetch_articles_any env _ w2 _ w3 Hfetch) as (Hfs3 & Hslug & _);
    [|cbn [snd]; by rewrite Hfs3, Hfs2].
  specialize (Hslug articles eq_refl).
  destruct (negb (truthy articles));
    [unfold ret; cbn [snd]; by rewrite Hfs3, Hfs2|].
  unfold bind. rewrite write_articles_run. unfold ret. cbn [snd].
  match goal with
  | |- context [Writer.write_articles_locals env ?self articles w3] =>
      destruct (write_articles_files env self articles w3) as [_ ->]
  end.
  - rewrite fold_write_doc_other; [by rewrite Hfs3, Hfs2|].
    intros a Ha. apply elem_of_filter_bool in Ha as [Ha _].
    rewrite Forall_forall in Hslug.
    rewrite doc_path_title_slug; [| by rewrite (Hslug a Ha) | done].
    intros E. by apply (Hp (generate_slug a ++ lit ".md")).
  - apply Hp.
Qed.

(** X25. A feed that cannot be fetched or parsed is no error of the
    command: once the service is found, the command returns normally after
    the one request for the feed, without a download, a pause or a file
    written, the ledger included. *)
Theorem unreachable_feed_returns env (o : Cli.options) w
    (writer : Writer.MarkdownWriter) w1 (rag : Rag.RAGIntegration) w2 :
  Writer.init (Cli.opt_output_dir o) w = (Ok writer, w1) ->
  Rag.setup_rag_connection env
    (Rag.integration_init (home env) (Cli.config_of o)) w1
  = (Ok (true, rag), w2) ->
  feed env (Cli.opt_url o) = None ->
  Cli.main env o w
  = (Cli.Returned,
     {| fs := fs w; console := console w2;
        trace := trace w2 ++ [FeedParse (Cli.opt_url o)] |}).
Proof.
  intros Hinit Hsetup Hfeed. rewrite main_run, Hinit, Hsetup.
  assert (fs w2 = fs w) as <-.
  { destruct (init_cases (Cli.opt_output_dir o) w)
      as [[_ E] | [_ (warn & E)]]; rewrite E in Hinit; [done|].
    injection Hinit as _ <-.
    destruct (setup_rag_connection_returns env
                (Rag.integration_init (home env) (Cli.config_of o))
                {| fs := fs w; console := console w ++ warn; trace := trace w |})
      as (? & ? & ? & E2 & Hfs & _).
    rewrite E2 in Hsetup. by injection Hsetup as _ _ <-. }
  unfold bind at 1, Fetcher.fetch_articles. unfold bind at 1.
  rewrite fetch_rss_feed_run.
  change (rss_url (Cli.config_of o)) with (Cli.opt_url o). by rewrite Hfeed.
Qed.
End CommandFacts.

Lemma refused_directory_aborts_witness :
  Cli.main (U:=Latin1.latin1) (L:=Sample.library) Sample.env_detected
    Sample.options_default
    {| fs := {| files := ∅; denied := {[ Sample.articles_dir ]} |};
       console := []; trace := [] |}
  = (Cli.Aborted,
     {| fs := {| files := ∅; denied := {[ Sample.articles_dir ]} |};
        console := []; trace := [] |}).
Proof.
  apply (refused_directory_aborts (U:=Latin1.latin1) (L:=Sample.library)).
  cbn [fs denied]. apply elem_of_singleton. reflexivity.
Defined.


Lemma main_writes_inside_output_dir_witness :
  files (fs (snd (Cli.main (U:=Latin1.latin1) (L:=Sample.library)
                    Sample2.env_pages Sample.options_default
                    (Sample.world_of Sample.fs_ab))))
    !! Path (lit "/etc/passwd")
  = None.
Proof.
  rewrite (main_writes_inside_output_dir (U:=Latin1.latin1) (L:=Sample.library)
             Sample2.env_pages Sample.options_default
             (Sample.world_of Sample.fs_ab) (Path (lit "/etc/passwd")) eq_refl).
  - vm_compute. reflexivity.
  - intros name E. vm_compute in E. discriminate E.
Defined.

Lemma unreachable_feed_returns_witness :
  fst (Cli.main (U:=Latin1.latin1) (L:=Sample.library) Sample.env_no_feed
         Sample.options_default (Sample.world_of Sample.fs_ab))
  = Cli.Returned
  /\ fs (snd (Cli.main (U:=Latin1.latin1) (L:=Sample.library) Sample.env_no_feed
                Sample.options_default (Sample.world_of Sample.fs_ab)))
     = Sample.fs_ab.
Proof.
  eassert (Writer.init (Cli.opt_output_dir Sample.options_default)
             (Sample.world_of Sample.fs_ab) = (Ok _, _)) as H1
    by (vm_compute; reflexivity).
  match type of H1 with
  | _ = (Ok _, ?w1) =>
      eassert (Rag.setup_rag_connection (U:=Latin1.latin1) Sample.env_no_feed
                 (Rag.integration_init (home Sample.env_no_feed)
                    (Cli.config_of Sample.options_default)) w1
               = (Ok (true, _), _)) as H2 by (vm_compute; reflexivity)
  end.
  rewrite (unreachable_feed_returns (U:=Latin1.latin1) (L:=Sample.library)
             _ _ _ _ _ _ _ H1 H2 eq_refl).
  split; reflexivity.
Defined.
